(** * BrochAI: a shallow embedding of the brochure generator

    The repository's React front end (src/App.jsx, the standalone BrochAI
    component and the FormSection component) is embedded in [Module Browser],
    [Module App], [Module FormSection] and [Module BrochAI].  The event
    handlers are written in a small monad that threads the React state store,
    the trace of observable browser effects and JavaScript exceptions.

    The generation pipeline behind the /generate-brochure endpoint is not
    among the sources; [Module Pipeline] models it from the specification. *)

From Stdlib Require Import String Ascii List Bool Arith Lia.
Import ListNotations.
Local Open Scope list_scope.
Local Open Scope string_scope.

(** ** JSON.stringify on the values the front end serialises *)

Module JSON.

(** The values handed to [JSON.stringify] by the code: a string, or an
    object literal whose properties hold strings.  A JavaScript string is
    modelled as a Rocq [string]; its characters are the code units 0..255. *)
Inductive value : Type :=
| JString (s : string)
| JObject (fields : list (string * string)).

Definition dquote : ascii := ascii_of_nat 34.
Definition backslash : ascii := ascii_of_nat 92.

Definition hex_digit (n : nat) : ascii :=
  match n with
  | 0 => "0" | 1 => "1" | 2 => "2" | 3 => "3" | 4 => "4"
  | 5 => "5" | 6 => "6" | 7 => "7" | 8 => "8" | 9 => "9"
  | 10 => "a" | 11 => "b" | 12 => "c" | 13 => "d" | 14 => "e"
  | _ => "f"
  end%char.

(** QuoteJSONString, one code unit: the two-character escapes, [\u00xx]
    for the other control characters, the character itself otherwise. *)
Definition escape_char (c : ascii) : string :=
  let n := nat_of_ascii c in
  if (n =? 8)%nat then "\b"
  else if (n =? 9)%nat then "\t"
  else if (n =? 10)%nat then "\n"
  else if (n =? 12)%nat then "\f"
  else if (n =? 13)%nat then "\r"
  else if (n =? 34)%nat then String backslash (String dquote EmptyString)
  else if (n =? 92)%nat then String backslash (String backslash EmptyString)
  else if (n <? 32)%nat then
    "\u00" ++ String (hex_digit (n / 16)) (String (hex_digit (n mod 16)) EmptyString)
  else String c EmptyString.

Fixpoint escape (s : string) : string :=
  match s with
  | EmptyString => EmptyString
  | String c r => escape_char c ++ escape r
  end.

Definition quote (s : string) : string :=
  String dquote (escape s ++ String dquote EmptyString).

(** SerializeJSONObject: the properties in insertion order, separated by
    commas, no white space (no indent argument is passed). *)
Fixpoint members (l : list (string * string)) : string :=
  match l with
  | [] => EmptyString
  | (k, x) :: r =>
      quote k ++ ":" ++ quote x ++
      match r with [] => EmptyString | _ :: _ => "," ++ members r end
  end.

Definition stringify (v : value) : string :=
  match v with
  | JString s => quote s
  | JObject fields => "{" ++ members fields ++ "}"
  end.

End JSON.

(** ** The browser: React state, observable effects, exceptions *)

Module Browser.

(** The five [useState] cells of [App] (and of [BrochAI]). *)
Record AppState : Type := {
  companyName : string;
  companyUrl : string;
  loading : bool;
  success : bool;
  mounted : bool
}.

(** A thrown JavaScript value: [new Error(message)] built by the code, or
    a value produced by the platform (a rejected promise, a DOM exception). *)
Inductive Exn : Type :=
| ErrorObj (message : string)
| Foreign (name : string).

(** The [init] argument of [fetch] together with its resource. *)
Record Request : Type := {
  req_url : string;
  req_method : string;
  req_headers : list (string * string);
  req_body : string
}.

(** The bytes of a blob. *)
Definition Blob : Type := list nat.

Record Response : Type := {
  ok : bool;
  blob : Exn + Blob            (* the promise of [response.blob()] *)
}.

(** The element built by [document.createElement("a")]. *)
Record Anchor : Type := {
  href : string;
  download : string
}.

Inductive Event : Type :=
| EvPreventDefault
| EvFetch (r : Request)
| EvCreateObjectURL (b : Blob)
| EvCreateElement (tag : string)
| EvAppendChild (a : Anchor)
| EvClick (a : Anchor)
| EvRemove (a : Anchor)
| EvRevokeObjectURL (url : string)
| EvConsoleError (e : Exn)
| EvAlert (msg : string)
| EvSetTimeout (delay : nat).

(** The platform calls of the handler that may complete abruptly. *)
Inductive Step : Type :=
| StCreateObjectURL | StCreateElement | StAppendChild | StClick
| StRemove | StRevokeObjectURL | StConsoleError | StAlert.

(** What the world outside the handler does: how each [fetch] settles,
    which URL a blob is given, and which platform call throws. *)
Record World : Type := {
  fetch_settles : Request -> Exn + Response;
  object_url : Blob -> string;
  fault : Step -> option Exn
}.

(** A pending [setTimeout]: its delay in milliseconds and its callback,
    which in this code base only calls state setters. *)
Record Timer : Type := {
  delay : nat;
  callback : AppState -> AppState
}.

Record Store : Type := {
  react : AppState;
  trace : list Event;          (* oldest first *)
  timers : list Timer
}.

Inductive Completion (A : Type) : Type :=
| Normal (a : A)
| Throw (e : Exn).
Arguments Normal {A} a.
Arguments Throw {A} e.

Definition M (A : Type) : Type := World -> Store -> Completion A * Store.

Definition ret {A} (a : A) : M A := fun _ s => (Normal a, s).

Definition bind {A B} (m : M A) (k : A -> M B) : M B :=
  fun w s =>
    match m w s with
    | (Normal a, s') => k a w s'
    | (Throw e, s') => (Throw e, s')
    end.

Definition throw {A} (e : Exn) : M A := fun _ s => (Throw e, s).

(** [try { body } catch (err) { handler } finally { fin }]: the handler
    runs on an abrupt completion of the body, [fin] runs in every case,
    and an abrupt completion of [fin] replaces the pending one. *)
Definition try_catch_finally {A} (body : M A) (handler : Exn -> M A)
    (fin : M unit) : M A :=
  fun w s =>
    let (r, s1) := body w s in
    let (r', s2) := match r with
                    | Normal a => (Normal a, s1)
                    | Throw e => handler e w s1
                    end in
    match fin w s2 with
    | (Normal _, s3) => (r', s3)
    | (Throw e, s3) => (Throw e, s3)
    end.

Definition emit (ev : Event) : M unit :=
  fun _ s => (Normal tt,
              {| react := react s; trace := trace s ++ [ev]; timers := timers s |}).

Definition update (f : AppState -> AppState) : M unit :=
  fun _ s => (Normal tt,
              {| react := f (react s); trace := trace s; timers := timers s |}).

(** A platform call: it is observed, then throws if the world says so. *)
Definition platform (st : Step) (ev : Event) : M unit :=
  fun w s =>
    let s' := {| react := react s; trace := trace s ++ [ev]; timers := timers s |} in
    match fault w st with
    | Some e => (Throw e, s')
    | None => (Normal tt, s')
    end.

(** The state setters returned by [useState]. *)
Definition setCompanyName (v : string) : M unit :=
  update (fun a => {| companyName := v; companyUrl := companyUrl a;
                      loading := loading a; success := success a;
                      mounted := mounted a |}).
Definition setCompanyUrl (v : string) : M unit :=
  update (fun a => {| companyName := companyName a; companyUrl := v;
                      loading := loading a; success := success a;
                      mounted := mounted a |}).
Definition set_loading (v : bool) (a : AppState) : AppState :=
  {| companyName := companyName a; companyUrl := companyUrl a;
     loading := v; success := success a; mounted := mounted a |}.
Definition set_success (v : bool) (a : AppState) : AppState :=
  {| companyName := companyName a; companyUrl := companyUrl a;
     loading := loading a; success := v; mounted := mounted a |}.
Definition setLoading (v : bool) : M unit := update (set_loading v).
Definition setSuccess (v : bool) : M unit := update (set_success v).

Definition preventDefault : M unit := emit EvPreventDefault.

(** [await fetch(url, init)] *)
Definition fetch (r : Request) : M Response :=
  fun w s =>
    let s' := {| react := react s; trace := trace s ++ [EvFetch r]; timers := timers s |} in
    match fetch_settles w r with
    | inl e => (Throw e, s')
    | inr resp => (Normal resp, s')
    end.

(** [await response.blob()] *)
Definition response_blob (resp : Response) : M Blob :=
  fun _ s =>
    match blob resp with
    | inl e => (Throw e, s)
    | inr b => (Normal b, s)
    end.

Definition createObjectURL (b : Blob) : M string :=
  fun w s =>
    match platform StCreateObjectURL (EvCreateObjectURL b) w s with
    | (Normal _, s') => (Normal (object_url w b), s')
    | (Throw e, s') => (Throw e, s')
    end.

Definition createElement (tag : string) : M Anchor :=
  bind (platform StCreateElement (EvCreateElement tag))
       (fun _ => ret {| href := ""; download := "" |}).

Definition setTimeout (cb : AppState -> AppState) (ms : nat) : M unit :=
  fun _ s => (Normal tt,
              {| react := react s;
                 trace := trace s ++ [EvSetTimeout ms];
                 timers := timers s ++ [{| delay := ms; callback := cb |}] |}).

(** The event loop fires a pending timer: its callback runs on the store. *)
Definition fire (t : Timer) (s : Store) : Store :=
  {| react := callback t (react s); trace := trace s; timers := timers s |}.

Module Notations.
Notation "x <- m ;; k" := (bind m (fun x => k))
  (at level 61, m at next level, right associativity).
Notation "m ;; k" := (bind m (fun _ => k))
  (at level 61, right associativity).
End Notations.

End Browser.

(** ** src/App.jsx *)

Module App.
Import Browser Browser.Notations.

(** The arguments of the [fetch] call of [handleSubmit]. *)
Definition generate_request (companyName companyUrl : string) : Request :=
  {| req_url := "/generate-brochure";
     req_method := "POST";
     req_headers := [("Content-Type", "application/json")];
     req_body := JSON.stringify
                   (JSON.JObject [("companyName", companyName);
                                  ("companyUrl", companyUrl)]) |}.

(** [handleSubmit] of [App].  [companyName] and [companyUrl] are the
    values of the render in which the handler was created (the closure),
    the setters act on the store. *)
Definition handleSubmit (companyName companyUrl : string) : M unit :=
  preventDefault ;;
  setLoading true ;;
  setSuccess false ;;
  try_catch_finally
    (response <- fetch (generate_request companyName companyUrl) ;;
     (if negb (ok response)
      then throw (ErrorObj "Failed to generate brochure")
      else ret tt) ;;
     blob <- response_blob response ;;
     url <- createObjectURL blob ;;
     a <- createElement "a" ;;
     let a1 := {| href := url; download := download a |} in
     let a2 := {| href := href a1; download := companyName ++ "_brochure.pdf" |} in
     platform StAppendChild (EvAppendChild a2) ;;
     platform StClick (EvClick a2) ;;
     platform StRemove (EvRemove a2) ;;
     platform StRevokeObjectURL (EvRevokeObjectURL url) ;;
     setSuccess true)
    (fun err =>
       platform StConsoleError (EvConsoleError err) ;;
       platform StAlert (EvAlert "Error generating brochure. Check backend logs."))
    (setLoading false).

End App.

(** ** The FormSection component (src/components/FormSection.jsx) *)

Module FormSection.
Import Browser Browser.Notations.

(** The [onClick] of the "Create Another" button.  The three setters are
    props of the component. *)
Definition onCreateAnother (setSuccess : bool -> M unit)
    (setCompanyName setCompanyUrl : string -> M unit) : M unit :=
  setSuccess false ;;
  setCompanyName "" ;;
  setCompanyUrl "".

End FormSection.

Module AppView.
Import Browser.

(** [App] renders [FormSection] with its own setters as props. *)
Definition onCreateAnother : M unit :=
  FormSection.onCreateAnother setSuccess setCompanyName setCompanyUrl.

End AppView.

(** ** The standalone BrochAI component *)

Module BrochAI.
Import Browser Browser.Notations.

(** The callback handed to [setTimeout]: [setLoading(false)] then
    [setSuccess(true)]. *)
Definition onTimeout (a : AppState) : AppState :=
  set_success true (set_loading false a).

Definition handleSubmit : M unit :=
  preventDefault ;;
  setLoading true ;;
  setSuccess false ;;
  setTimeout onTimeout 2000.

(** The inline [onClick] of the "Create Another" button. *)
Definition onCreateAnother : M unit :=
  setSuccess false ;;
  setCompanyName "" ;;
  setCompanyUrl "".

End BrochAI.

(** ** Observers used to state the properties of a run *)

Module Observe.
Import Browser.

(** The requests sent, in order. *)
Fixpoint requests (evs : list Event) : list Request :=
  match evs with
  | [] => []
  | EvFetch r :: t => r :: requests t
  | _ :: t => requests t
  end.

(** The files handed to the user: the anchors that were clicked. *)
Fixpoint downloads (evs : list Event) : list Anchor :=
  match evs with
  | [] => []
  | EvClick a :: t => a :: downloads t
  | _ :: t => downloads t
  end.

(** The blobs turned into object URLs. *)
Fixpoint object_urls (evs : list Event) : list Blob :=
  match evs with
  | [] => []
  | EvCreateObjectURL b :: t => b :: object_urls t
  | _ :: t => object_urls t
  end.

Fixpoint alerts (evs : list Event) : list string :=
  match evs with
  | [] => []
  | EvAlert m :: t => m :: alerts t
  | _ :: t => alerts t
  end.

End Observe.

(** ** Reading a JSON body back

    A reader for the texts [JSON.stringify] produces on objects of strings:
    it is the receiving side's view of a request body and is used only to
    state what a body contains. *)

Module JSONRead.
Import JSON.

Inductive mode : Type :=
| Plain
| Escaped
| Hex (remaining : nat) (acc : nat).

Definition hex_value (c : ascii) : option nat :=
  let n := nat_of_ascii c in
  if ((48 <=? n) && (n <=? 57))%nat then Some (n - 48)
  else if ((97 <=? n) && (n <=? 102))%nat then Some (n - 87)
  else if ((65 <=? n) && (n <=? 70))%nat then Some (n - 55)
  else None.

Definition push (c : ascii) (r : option (string * string)) : option (string * string) :=
  match r with
  | Some (s, rest) => Some (String c s, rest)
  | None => None
  end.

(** Reads the characters of a JSON string up to its closing quote and
    returns the string denoted and the text after the quote. *)
Fixpoint read_chars (m : mode) (s : string) : option (string * string) :=
  match s with
  | EmptyString => None
  | String c r =>
      let n := nat_of_ascii c in
      match m with
      | Plain =>
          if (n =? 34)%nat then Some (EmptyString, r)
          else if (n =? 92)%nat then read_chars Escaped r
          else if (n <? 32)%nat then None
          else push c (read_chars Plain r)
      | Escaped =>
          if (n =? 98)%nat then push (ascii_of_nat 8) (read_chars Plain r)
          else if (n =? 116)%nat then push (ascii_of_nat 9) (read_chars Plain r)
          else if (n =? 110)%nat then push (ascii_of_nat 10) (read_chars Plain r)
          else if (n =? 102)%nat then push (ascii_of_nat 12) (read_chars Plain r)
          else if (n =? 114)%nat then push (ascii_of_nat 13) (read_chars Plain r)
          else if (n =? 34)%nat then push dquote (read_chars Plain r)
          else if (n =? 92)%nat then push backslash (read_chars Plain r)
          else if (n =? 47)%nat then push c (read_chars Plain r)
          else if (n =? 117)%nat then read_chars (Hex 3 0) r
          else None
      | Hex k acc =>
          match hex_value c with
          | None => None
          | Some d =>
              let acc' := acc * 16 + d in
              match k with
              | 0 => if (acc' <? 256)%nat
                     then push (ascii_of_nat acc') (read_chars Plain r)
                     else None
              | S k' => read_chars (Hex k' acc') r
              end
          end
      end
  end.

Definition read_string (s : string) : option (string * string) :=
  match s with
  | String c r => if (nat_of_ascii c =? 34)%nat then read_chars Plain r else None
  | EmptyString => None
  end.

Definition expect (c : ascii) (s : string) : option string :=
  match s with
  | String d r => if Ascii.eqb c d then Some r else None
  | EmptyString => None
  end.

(** Reads [n] or fewer further members after the one at the head of [s]. *)
Fixpoint read_members (n : nat) (s : string) : option (list (string * string)) :=
  match read_string s with
  | None => None
  | Some (k, s1) =>
      match expect ":" s1 with
      | None => None
      | Some s2 =>
          match read_string s2 with
          | None => None
          | Some (v, s3) =>
              match s3 with
              | String "}" EmptyString => Some [(k, v)]
              | String "," s4 =>
                  match n with
                  | 0 => None
                  | S n' =>
                      match read_members n' s4 with
                      | Some l => Some ((k, v) :: l)
                      | None => None
                      end
                  end
              | _ => None
              end
          end
      end
  end.

(** The properties of a JSON object text whose values are all strings. *)
Definition read_object (s : string) : option (list (string * string)) :=
  match s with
  | String "{" (String "}" EmptyString) => Some []
  | String "{" r => read_members (String.length r) r
  | _ => None
  end.

End JSONRead.

(** * The generation pipeline

    The backend of the repository (main.py, scrape.py, ai_services.py,
    dynamic_pdf_generator.py) is not part of the sources at hand.  The four
    stages and their orchestration are modelled from sections 3, 4, 5 and 7
    of the specification. *)

Module Pipeline.
Local Open Scope nat_scope.

(** *** Data model (specification, section 3) *)

Inductive Category : Type :=
| CatHome | CatAbout | CatProduct | CatContact | CatOther.

Inductive SectionType : Type :=
| Cover | About | Offerings | ValueProposition | CallToAction | Contact.

(** A URL, given by its registrable domain and the rest. *)
Record Url : Type := { domain : string; path : string }.

Record Link : Type := { anchorText : string; target : Url }.

Inductive NodeKind : Type :=
| Script | Style | Navigation | Heading | Paragraph | ListItem.

Record Node : Type := { kind : NodeKind; text : string }.

(** Modelled from the spec: the HTML parser is missing; a raw page is
    given by what parsing finds in it: its title, its elements in document
    order and its anchors. *)
Record Html : Type := {
  htmlTitle : string;
  nodes : list Node;
  anchors : list Link
}.

Record PageContent : Type := {
  url : Url;
  title : string;
  category : Category;
  textBlocks : list string;
  internalLinks : list Url
}.

Record SiteContent : Type := {
  rootUrl : Url;
  pages : list PageContent
}.

Record Section : Type := {
  sectionType : SectionType;
  heading : string;
  paragraphs : list string;
  bullets : option (list string)
}.

Definition BrochureContent : Type := list Section.

(** One physical page of the rendered document. *)
Record Page : Type := {
  template : SectionType;
  sectionIndex : nat;
  content : list string
}.

Record BrochureDocument : Type := {
  stream : list Page;
  pageCount : nat;
  generatedAt : nat;
  docCompanyName : string
}.

(** Error taxonomy (specification, section 7). *)
Inductive ErrorKind : Type :=
| FetchRootFailed | ExtractionEmpty | EnrichmentUnavailable
| EnrichmentInvalid | RenderFailure | Timeout.

Inductive Stage : Type := StFetch | StExtract | StEnrich | StAssemble.

(** Modelled from the spec: the states of section 4.5; a non-terminal
    state carries the input of the stage it names. *)
Inductive JobState : Type :=
| Created
| Fetching
| Extracting (raw : list (Url * Html))
| Enriching (site : SiteContent)
| Assembling (copy : BrochureContent)
| Completed (doc : BrochureDocument)
| Failed (reason : ErrorKind).

Record GenerationJob : Type := {
  companyName : string;
  companyUrl : Url;
  state : JobState;
  startedAt : nat;
  clock : nat;
  completedAt : option nat;
  failureReason : option ErrorKind
}.

(** *** The collaborators outside the pipeline *)

Inductive FetchResult : Type :=
| Fetched (h : Html)
| NonSuccess (status : nat)
| TimedOut.

Inductive BackendReply : Type :=
| TransportError
| Malformed
| Replied (sections : list Section).

(** What one request to the backend carries: the bounded prompt context,
    the company name, and whether it is the stricter, corrective one. *)
Record BackendRequest : Type := {
  context : list PageContent;
  company : string;
  corrective : bool
}.

(** The web, the language-model backend (its reply to the n-th request
    of the job) and the time each stage takes. *)
Record World : Type := {
  web : Url -> FetchResult;
  backend : nat -> BackendRequest -> BackendReply;
  duration : Stage -> nat
}.

(** The tunable constants the specification leaves open. *)
Record Config : Type := {
  maxPages : nat;
  minBlockLength : nat;
  backendAttempts : nat;
  promptLimit : nat;
  pageCapacity : nat;
  jobBudget : nat
}.

(** Modelled from the spec: the keyword heuristics, white-space
    normalisation and the renderer's measures are missing; they are taken
    as given functions. *)
Record Heuristics : Type := {
  linkCategory : Link -> Category;
  pageCategory : Url -> string -> Category;
  normalizeSpace : string -> string;
  blockHeight : SectionType -> string -> nat;
  renderable : Section -> bool
}.

Definition url_eqb (a b : Url) : bool :=
  String.eqb (domain a) (domain b) && String.eqb (path a) (path b).

Section Stages.
Context (hz : Heuristics) (cfg : Config) (w : World).

(** *** SiteFetcher (section 4.1) *)

Definition internal (root : Url) (l : Link) : bool :=
  String.eqb (domain (target l)) (domain root).

(** Modelled from the spec: the candidate internal links of the root
    page: its anchors on the same registrable domain, in document order. *)
Definition candidates (root : Url) (h : Html) : list Link :=
  filter (internal root) (anchors h).

Definition high_value (l : Link) : bool :=
  match linkCategory hz l with
  | CatAbout | CatProduct | CatContact => true
  | CatHome | CatOther => false
  end.

(** About, product and contact links first, the others after them,
    each group in document order. *)
Definition prioritized (ls : list Link) : list Link :=
  (filter high_value ls ++ filter (fun l => negb (high_value l)) ls)%list.

Definition selected (root : Url) (h : Html) (n : nat) : list Link :=
  firstn (n - 1) (prioritized (candidates root h)).


(** A page that times out or answers outside 2xx is left out. *)
Fixpoint fetch_pages (ls : list Link) : list (Url * Html) :=
  match ls with
  | [] => []
  | l :: r =>
      match web w (target l) with
      | Fetched h => (target l, h) :: fetch_pages r
      | NonSuccess _ | TimedOut => fetch_pages r
      end
  end.

(** Modelled from the spec: [fetch(rootUrl, maxPages, perRequestTimeout)];
    the time-out is folded into the answer of [web]. *)
Definition fetch (root : Url) (n : nat) : ErrorKind + list (Url * Html) :=
  match web w root with
  | Fetched h => inr ((root, h) :: fetch_pages (selected root h n))
  | NonSuccess _ | TimedOut => inl FetchRootFailed
  end.

(** *** ContentExtractor (section 4.2) *)

Definition structural (k : NodeKind) : bool :=
  match k with
  | Heading | Paragraph | ListItem => true
  | Script | Style | Navigation => false
  end.

(** A qualifying text block: a heading, paragraph or list item whose
    text reaches the minimum length. *)
Definition qualifying (n : Node) : bool :=
  structural (kind n) && (minBlockLength cfg <=? String.length (text n)).

Definition blocks_of (h : Html) : list string :=
  map text (filter qualifying (nodes h)).

Definition page_of (root : Url) (p : Url * Html) : PageContent :=
  {| url := fst p;
     title := htmlTitle (snd p);
     category := pageCategory hz (fst p) (htmlTitle (snd p));
     textBlocks := blocks_of (snd p);
     internalLinks := map target (filter (internal root) (anchors (snd p))) |}.

Definition rank (c : Category) : nat :=
  match c with
  | CatHome => 0 | CatAbout => 1 | CatProduct => 2 | CatContact => 3
  | CatOther => 4
  end.

Fixpoint insert_page (p : PageContent) (ps : list PageContent) : list PageContent :=
  match ps with
  | [] => [p]
  | q :: r =>
      if rank (category p) <=? rank (category q)
      then p :: q :: r
      else q :: insert_page p r
  end.

(** Pages re-sorted by category priority (section 5). *)
Fixpoint sort_pages (ps : list PageContent) : list PageContent :=
  match ps with
  | [] => []
  | p :: r => insert_page p (sort_pages r)
  end.

(** Drops the blocks whose normalised text was seen before; returns the
    blocks kept and the texts seen so far. *)
Fixpoint dedup_blocks (seen : list string) (bs : list string)
    : list string * list string :=
  match bs with
  | [] => ([], seen)
  | b :: r =>
      if existsb (String.eqb (normalizeSpace hz b)) seen
      then dedup_blocks seen r
      else let (kept, seen') := dedup_blocks (normalizeSpace hz b :: seen) r in
           (b :: kept, seen')
  end.

Fixpoint dedup_pages (seen : list string) (ps : list PageContent)
    : list PageContent :=
  match ps with
  | [] => []
  | p :: r =>
      let (kept, seen') := dedup_blocks seen (textBlocks p) in
      {| url := url p; title := title p; category := category p;
         textBlocks := kept; internalLinks := internalLinks p |}
      :: dedup_pages seen' r
  end.

Definition has_blocks (p : PageContent) : bool :=
  match textBlocks p with [] => false | _ :: _ => true end.

(** Modelled from the spec: [extract(sequence of (url, rawHtml))]. *)
Definition extract (root : Url) (raw : list (Url * Html))
    : ErrorKind + SiteContent :=
  let ps := dedup_pages [] (sort_pages (map (page_of root) raw)) in
  if existsb has_blocks ps
  then inr {| rootUrl := root; pages := ps |}
  else inl ExtractionEmpty.

(** *** NarrativeEnricher (section 4.3) *)

Definition is_cover (s : Section) : bool :=
  match sectionType s with Cover => true | _ => false end.

Definition is_closing (s : Section) : bool :=
  match sectionType s with CallToAction | Contact => true | _ => false end.

Definition count (p : Section -> bool) (l : list Section) : nat :=
  List.length (filter p l).

(** Modelled from the spec: the cover/closing-section check of section 3:
    exactly one cover, and it is first; exactly one callToAction or contact,
    and it is last. *)
Definition valid_sections (l : BrochureContent) : bool :=
  match l with
  | [] => false
  | first :: rest =>
      is_cover first && (count is_cover l =? 1) &&
      match rest with
      | [] => false
      | _ :: _ => is_closing (last rest first) && (count is_closing l =? 1)
      end
  end.

Definition page_size (p : PageContent) : nat :=
  list_sum (map String.length (textBlocks p)).

(** The prompt context: the pages, in priority order, that fit the
    limit; the pages of least priority are the ones cut. *)
Fixpoint truncate_context (limit : nat) (ps : list PageContent)
    : list PageContent :=
  match ps with
  | [] => []
  | p :: r =>
      if page_size p <=? limit
      then p :: truncate_context (limit - page_size p) r
      else []
  end.

(** One request to the backend, repeated on a transport error while
    attempts remain.  [next] numbers the requests of the job. *)
Fixpoint request (attempts next : nat) (q : BackendRequest)
    : option (BackendReply * nat) :=
  match attempts with
  | 0 => None
  | S k =>
      match backend w next q with
      | TransportError => request k (S next) q
      | r => Some (r, S next)
      end
  end.

Definition accepted (r : BackendReply) : option BrochureContent :=
  match r with
  | Replied l => if valid_sections l then Some l else None
  | Malformed | TransportError => None
  end.

(** Modelled from the spec: [enrich(SiteContent, companyName)]: one
    request, validated; on a violation exactly one corrective retry. *)
Definition enrich (site : SiteContent) (name : string)
    : ErrorKind + BrochureContent :=
  let ctx := truncate_context (promptLimit cfg) (pages site) in
  match request (backendAttempts cfg) 0
          {| context := ctx; company := name; corrective := false |} with
  | None => inl EnrichmentUnavailable
  | Some (r1, next) =>
      match accepted r1 with
      | Some l => inr l
      | None =>
          match request (backendAttempts cfg) next
                  {| context := ctx; company := name; corrective := true |} with
          | None => inl EnrichmentUnavailable
          | Some (r2, _) =>
              match accepted r2 with
              | Some l => inr l
              | None => inl EnrichmentInvalid
              end
          end
      end
  end.

(** *** BrochureAssembler (section 4.4) *)

(** The first section always uses the cover template. *)
Definition template_for (position : nat) (t : SectionType) : SectionType :=
  match position with
  | 0 => Cover
  | S _ => t
  end.

Definition blocks_in (s : Section) : list string :=
  (heading s :: paragraphs s ++
   match bullets s with Some bs => bs | None => [] end)%list.

(** Fills pages block by block: a block that does not fit the room left
    opens a new page; a page always takes its first block. *)
Fixpoint paginate (t : SectionType) (current : list string) (used : nat)
    (bs : list string) : list (list string) :=
  match bs with
  | [] => [current]
  | b :: r =>
      let h := blockHeight hz t b in
      match current with
      | [] => paginate t [b] h r
      | _ :: _ =>
          if used + h <=? pageCapacity cfg
          then paginate t (current ++ [b])%list (used + h) r
          else current :: paginate t [b] h r
      end
  end.

Definition section_pages (position : nat) (s : Section) : list Page :=
  let t := template_for position (sectionType s) in
  map (fun c => {| template := t; sectionIndex := position; content := c |})
      (paginate t [] 0 (blocks_in s)).

Fixpoint layout (position : nat) (l : list Section) : list Page :=
  match l with
  | [] => []
  | s :: r => (section_pages position s ++ layout (S position) r)%list
  end.

(** Modelled from the spec: [assemble(BrochureContent, companyName)];
    [now] is the time stamped on the document. *)
Definition assemble (copy : BrochureContent) (name : string) (now : nat)
    : ErrorKind + BrochureDocument :=
  if forallb (renderable hz) copy
  then let ps := layout 0 copy in
       inr {| stream := ps; pageCount := List.length ps;
              generatedAt := now; docCompanyName := name |}
  else inl RenderFailure.

(** *** GenerationPipeline (section 4.5) *)

Definition fail_job (j : GenerationJob) (e : ErrorKind) (t : nat) : GenerationJob :=
  {| companyName := companyName j; companyUrl := companyUrl j;
     state := Failed e; startedAt := startedAt j; clock := t;
     completedAt := Some t; failureReason := Some e |}.

(** Modelled from the spec: the stage has produced [r] after [duration]
    time units: the job fails with the stage's error, or with [Timeout] when
    the overall budget is exceeded, and moves to the next state otherwise. *)
Definition settle {A} (j : GenerationJob) (st : Stage)
    (r : ErrorKind + A) (next : A -> JobState) : GenerationJob :=
  let t := clock j + duration w st in
  match r with
  | inl e => fail_job j e t
  | inr a =>
      if jobBudget cfg <? t - startedAt j
      then fail_job j Timeout t
      else {| companyName := companyName j; companyUrl := companyUrl j;
              state := next a; startedAt := startedAt j; clock := t;
              completedAt := match next a with
                             | Completed _ => Some t
                             | _ => None
                             end;
              failureReason := None |}
  end.

Definition step (j : GenerationJob) : GenerationJob :=
  match state j with
  | Created =>
      {| companyName := companyName j; companyUrl := companyUrl j;
         state := Fetching; startedAt := startedAt j; clock := clock j;
         completedAt := None; failureReason := None |}
  | Fetching =>
      settle j StFetch (fetch (companyUrl j) (maxPages cfg)) Extracting
  | Extracting raw =>
      settle j StExtract (extract (companyUrl j) raw) Enriching
  | Enriching site =>
      settle j StEnrich (enrich site (companyName j)) Assembling
  | Assembling copy =>
      settle j StAssemble
        (assemble copy (companyName j) (clock j + duration w StAssemble))
        Completed
  | Completed _ | Failed _ => j
  end.

Definition new_job (name : string) (u : Url) (now : nat) : GenerationJob :=
  {| companyName := name; companyUrl := u; state := Created;
     startedAt := now; clock := now; completedAt := None;
     failureReason := None |}.

Fixpoint steps (n : nat) (j : GenerationJob) : GenerationJob :=
  match n with
  | 0 => j
  | S k => steps k (step j)
  end.

(** Modelled from the spec: the entry point of the pipeline; a job is
    created and driven through its five transitions. *)
Definition generate (name : string) (u : Url) (now : nat) : GenerationJob :=
  steps 5 (new_job name u now).

End Stages.

End Pipeline.

(** ** Worlds and stores used as concrete inputs *)

Module Fixtures.
Import Browser.

Definition failure_alert : string :=
  "Error generating brochure. Check backend logs.".

(** A world in which the backend answers with a PDF and nothing throws. *)
Definition happy_world : World :=
  {| fetch_settles := fun _ => inr {| ok := true; blob := inr [37; 80; 68; 70] |};
     object_url := fun _ => "blob:brochure";
     fault := fun _ => None |}.

(** A world in which the backend answers with an error status. *)
Definition failing_world : World :=
  {| fetch_settles := fun _ => inr {| ok := false; blob := inr [] |};
     object_url := fun _ => "blob:brochure";
     fault := fun _ => None |}.

Definition fresh_store : Store :=
  {| react := {| companyName := "Acme"; companyUrl := "https://acme.test";
                 loading := false; success := false; mounted := true |};
     trace := [];
     timers := [] |}.

(** The state left by "Create Another". *)
Definition reset_form (a : AppState) : AppState :=
  {| companyName := ""; companyUrl := "";
     loading := loading a; success := false; mounted := mounted a |}.

End Fixtures.

(** ** A sample site, backend and configuration *)

Module Sample.
Import Pipeline.
Local Open Scope nat_scope.

Definition contains (needle hay : string) : bool :=
  match String.index 0 needle hay with
  | Some _ => true
  | None => false
  end.

Definition by_keyword (s : string) : Category :=
  if contains "about" s then CatAbout
  else if contains "product" s || contains "service" s || contains "pricing" s
  then CatProduct
  else if contains "contact" s then CatContact
  else CatOther.

Definition heuristics : Heuristics :=
  {| linkCategory := fun l =>
       match by_keyword (path (target l)) with
       | CatOther => by_keyword (anchorText l)
       | c => c
       end;
     pageCategory := fun u t =>
       match path u with
       | EmptyString => CatHome
       | _ => match by_keyword (path u) with
              | CatOther => by_keyword t
              | c => c
              end
       end;
     normalizeSpace := fun s => s;
     blockHeight := fun _ s => 1 + String.length s / 80;
     renderable := fun _ => true |}.

Definition config : Config :=
  {| maxPages := 5; minBlockLength := 20; backendAttempts := 2;
     promptLimit := 4000; pageCapacity := 40; jobBudget := 120 |}.

Definition site (p : string) : Url := {| domain := "acme.test"; path := p |}.

Definition two_digits (i : nat) : string :=
  String (ascii_of_nat (48 + i / 10)) (String (ascii_of_nat (48 + i mod 10)) EmptyString).

(** Forty-six ordinary links followed by four links of high value. *)
Definition fifty_links : list Link :=
  (map (fun i => {| anchorText := "Article"; target := site ("/news/" ++ two_digits i) |})
       (seq 0 46)
   ++ [ {| anchorText := "Who we are"; target := site "/about" |};
        {| anchorText := "Our products"; target := site "/catalogue" |};
        {| anchorText := "Get in touch"; target := site "/contact" |};
        {| anchorText := "Plans"; target := site "/services" |} ])%list.

Definition root_page : Html :=
  {| htmlTitle := "Acme Technologies";
     nodes := [ {| kind := Navigation; text := "Home About Contact" |};
                {| kind := Script; text := "window.dataLayer = window.dataLayer || [];" |};
                {| kind := Heading; text := "Acme builds rockets." |};
                {| kind := Paragraph;
                   text := "Acme Technologies designs and builds small launch vehicles." |} ];
     anchors := fifty_links |}.

Definition sub_page : Html :=
  {| htmlTitle := "Acme";
     nodes := [ {| kind := Paragraph;
                   text := "Acme Technologies designs and builds small launch vehicles." |} ];
     anchors := [] |}.

Definition web_up (u : Url) : FetchResult :=
  if url_eqb u (site "") then Fetched root_page else Fetched sub_page.


Definition section (t : SectionType) (h : string) : Section :=
  {| sectionType := t; heading := h;
     paragraphs := ["Acme Technologies designs and builds small launch vehicles."];
     bullets := None |}.

Definition good_copy : BrochureContent :=
  [section Cover "Acme Technologies"; section About "Who we are";
   section Offerings "What we build"; section Contact "Get in touch"].

(** The same sections with the closing section ahead of the cover. *)
Definition shuffled_copy : BrochureContent :=
  [section Contact "Get in touch"; section Cover "Acme Technologies";
   section About "Who we are"; section Offerings "What we build"].

Definition stage_time (st : Stage) : nat :=
  match st with
  | StFetch => 10 | StExtract => 1 | StEnrich => 40 | StAssemble => 5
  end.

Definition world_ok : World :=
  {| web := web_up; backend := fun _ _ => Replied good_copy; duration := stage_time |}.

(** The backend answers out of order first, and in order when asked
    again with the corrective request. *)
Definition world_retry : World :=
  {| web := web_up;
     backend := fun _ q => if corrective q then Replied good_copy
                           else Replied shuffled_copy;
     duration := stage_time |}.

(** The backend cannot be reached. *)
Definition world_outage : World :=
  {| web := web_up; backend := fun _ _ => TransportError; duration := stage_time |}.

(** The backend answers, but only after 500 time units. *)
Definition world_slow : World :=
  {| web := web_up; backend := fun _ _ => Replied good_copy;
     duration := fun st => match st with StEnrich => 500 | _ => stage_time st end |}.

(** A renderer that cannot draw a section with an empty heading. *)
Definition heuristics_strict : Heuristics :=
  {| linkCategory := linkCategory heuristics;
     pageCategory := pageCategory heuristics;
     normalizeSpace := normalizeSpace heuristics;
     blockHeight := blockHeight heuristics;
     renderable := fun s => negb (String.eqb (heading s) EmptyString) |}.

(** Valid sections, the last with an empty heading. *)
Definition world_blank_heading : World :=
  {| web := web_up;
     backend := fun _ _ => Replied [section Cover "Acme Technologies";
                                    section Contact EmptyString];
     duration := stage_time |}.


End Sample.

(** * The rendered user interface

    The JSX returned by the components is embedded as a tree of React
    elements; the text of an element is held as its UTF-8 bytes. *)

Module React.
Import Browser.

(** The argument of [scrollIntoView]. *)
Record Scroll : Type := {
  scroll_target : string;
  behavior : string
}.

(** What a handler can ask the document: whether [getElementById] finds
    an element. *)
Definition Document : Type := string -> bool.

(** The value of a JSX attribute: a string, a boolean, a number literal, a
    style object, or a function: an event handler that ignores its event
    but for [preventDefault] ([PAction]), one applied to [e.target.value]
    ([PChange]), one that reads the document ([PDocument]). *)
Inductive PropValue : Type :=
| PStr (s : string)
| PBool (b : bool)
| PNum (literal : string)
| PStyle (declarations : list (string * string))
| PAction (h : M unit)
| PChange (h : string -> M unit)
| PDocument (h : Document -> Exn + Scroll).

#[warnings="-register-all"]
Inductive Element : Type :=
| Text (s : string)
| Elem (tag : string) (props : list (string * PropValue)) (children : list Element)
| Fragment (children : list Element).

(** The first value given to a property. *)
Fixpoint prop (name : string) (props : list (string * PropValue)) : option PropValue :=
  match props with
  | [] => None
  | (n, v) :: r => if String.eqb n name then Some v else prop name r
  end.

(** The host output: a fragment contributes its children. *)
Fixpoint host (e : Element) : list Element :=
  match e with
  | Text s => [Text s]
  | Elem tag props children =>
      [Elem tag props
         ((fix all (l : list Element) : list Element :=
             match l with
             | [] => []
             | c :: r => (host c ++ all r)%list
             end) children)]
  | Fragment children =>
      (fix all (l : list Element) : list Element :=
         match l with
         | [] => []
         | c :: r => (host c ++ all r)%list
         end) children
  end.

(** Tag and properties of every element of the tree, in document order. *)
Fixpoint nodes (e : Element) : list (string * list (string * PropValue)) :=
  match e with
  | Text _ => []
  | Elem tag props children =>
      (tag, props) ::
      (fix all (l : list Element) : list (string * list (string * PropValue)) :=
         match l with
         | [] => []
         | c :: r => (nodes c ++ all r)%list
         end) children
  | Fragment children =>
      (fix all (l : list Element) : list (string * list (string * PropValue)) :=
         match l with
         | [] => []
         | c :: r => (nodes c ++ all r)%list
         end) children
  end.

Definition string_prop (name : string) (props : list (string * PropValue)) : option string :=
  match prop name props with
  | Some (PStr s) => Some s
  | _ => None
  end.

Definition has_id (id : string) (n : string * list (string * PropValue)) : bool :=
  match string_prop "id" (snd n) with
  | Some s => String.eqb s id
  | None => false
  end.

(** [document.getElementById]: the first element with that id. *)
Definition getElementById (id : string) (e : Element)
    : option (string * list (string * PropValue)) :=
  find (has_id id) (nodes e).

Definition document_of (e : Element) : Document :=
  fun id => match getElementById id e with Some _ => true | None => false end.

(** The ids given in the tree, in document order. *)
Definition ids (e : Element) : list string :=
  flat_map (fun n => match string_prop "id" (snd n) with
                     | Some s => [s]
                     | None => []
                     end) (nodes e).

Definition disabled (props : list (string * PropValue)) : bool :=
  match prop "disabled" props with
  | Some (PBool b) => b
  | _ => false
  end.

Definition is_tag (t : string) (n : string * list (string * PropValue)) : bool :=
  String.eqb (fst n) t.

(** A submit button that can be activated. *)
Definition live_submit_button (n : string * list (string * PropValue)) : bool :=
  is_tag "button" n &&
  match string_prop "type" (snd n) with
  | Some t => String.eqb t "submit"
  | None => true
  end &&
  negb (disabled (snd n)).

(** What a user can set off on the page. *)
Inductive Interaction : Type :=
| Click (h : M unit)
| ClickDocument (h : Document -> Exn + Scroll)
| Type_ (h : string -> M unit)
| Submit (h : M unit).

(** The interactions an element offers by itself: a control that is not
    disabled offers its [onClick] or [onChange]; a form offers its
    [onSubmit] when it holds a submit button that can be activated.
    Constraint validation ([required], [type="url"]) is not taken into
    account: a submission it would block is offered all the same. *)
Definition offers (tag : string) (props : list (string * PropValue))
    (inner : list (string * list (string * PropValue))) : list Interaction :=
  if String.eqb tag "form" then
    match prop "onSubmit" props with
    | Some (PAction h) => if existsb live_submit_button inner then [Submit h] else []
    | _ => []
    end
  else if disabled props then []
  else
    (match prop "onClick" props with
     | Some (PAction h) => [Click h]
     | Some (PDocument h) => [ClickDocument h]
     | _ => []
     end ++
     match prop "onChange" props with
     | Some (PChange h) => [Type_ h]
     | _ => []
     end)%list.

(** Every interaction of the tree, in document order. *)
Fixpoint interactions (e : Element) : list Interaction :=
  match e with
  | Text _ => []
  | Elem tag props children =>
      (offers tag props
         ((fix all (l : list Element) : list (string * list (string * PropValue)) :=
             match l with
             | [] => []
             | c :: r => (nodes c ++ all r)%list
             end) children)
       ++
       (fix all (l : list Element) : list Interaction :=
          match l with
          | [] => []
          | c :: r => (interactions c ++ all r)%list
          end) children)%list
  | Fragment children =>
      (fix all (l : list Element) : list Interaction :=
         match l with
         | [] => []
         | c :: r => (interactions c ++ all r)%list
         end) children
  end.

(** The tree without its [className] properties. *)
Definition not_class (p : string * PropValue) : bool :=
  negb (String.eqb (fst p) "className").

Fixpoint without_class (e : Element) : Element :=
  match e with
  | Text s => Text s
  | Elem tag props children =>
      Elem tag (filter not_class props)
        ((fix all (l : list Element) : list Element :=
            match l with
            | [] => []
            | c :: r => without_class c :: all r
            end) children)
  | Fragment children =>
      Fragment
        ((fix all (l : list Element) : list Element :=
            match l with
            | [] => []
            | c :: r => without_class c :: all r
            end) children)
  end.

(** Replaces the [onSubmit] handler of every form. *)
Definition with_submit_prop (h : M unit) (p : string * PropValue) : string * PropValue :=
  if String.eqb (fst p) "onSubmit" then (fst p, PAction h) else p.

Fixpoint with_submit (h : M unit) (e : Element) : Element :=
  match e with
  | Text s => Text s
  | Elem tag props children =>
      Elem tag (map (with_submit_prop h) props)
        ((fix all (l : list Element) : list Element :=
            match l with
            | [] => []
            | c :: r => with_submit h c :: all r
            end) children)
  | Fragment children =>
      Fragment
        ((fix all (l : list Element) : list Element :=
            match l with
            | [] => []
            | c :: r => with_submit h c :: all r
            end) children)
  end.

End React.

(** ** The components (JSX of src/App.jsx, src/components and the
    standalone BrochAI component) *)

Module Views.
Import Browser React.

(** [scrollToForm]:
    [document.getElementById("generator").scrollIntoView({ behavior: "smooth" })];
    calling a method of [null] throws a TypeError. *)
Definition scrollToForm (document : Document) : Exn + Scroll :=
  if document "generator"
  then inr {| scroll_target := "generator"; behavior := "smooth" |}
  else inl (Foreign "TypeError").

(** The effect run after the first render: [setMounted(true)]. *)
Definition onMount : M unit :=
  update (fun a => {| companyName := companyName a; companyUrl := companyUrl a;
                      loading := loading a; success := success a;
                      mounted := true |}).

(** The initial values of the [useState] cells. *)
Definition initial : AppState :=
  {| companyName := ""; companyUrl := ""; loading := false;
     success := false; mounted := false |}.

(** The FloatingOrb component. *)
Definition FloatingOrb (className : string) : Element :=
  Elem "div"
    [("className", PStr ("absolute rounded-full blur-3xl opacity-30 pointer-events-none " ++ className))]
    [].

(** The HeroSection component. *)
Definition HeroSection (mounted : bool)
    (scrollToForm : Document -> Exn + Scroll) : Element :=
  Elem "section"
    [("className", PStr "relative z-10 flex flex-col items-center justify-center text-center px-6 pt-28 pb-24")]
    [Elem "div"
      [("className", PStr ("inline-flex items-center gap-2 px-4 py-1.5 rounded-full bg-white border border-violet-200 shadow-sm text-xs font-semibold tracking-widest text-violet-600 uppercase mb-8 transition-all duration-700 " ++ (if mounted then "opacity-100 translate-y-0" else "opacity-0 translate-y-4")))]
      [Elem "span"
        [("className", PStr "w-2 h-2 rounded-full bg-violet-500 animate-pulse")]
        [];
       Text "Powered by AI"];
     Elem "h1"
      [("className", PStr ("text-5xl md:text-7xl font-extrabold leading-tight tracking-tight text-gray-900 max-w-4xl transition-all duration-700 delay-100 " ++ (if mounted then "opacity-100 translate-y-0" else "opacity-0 translate-y-6"))); ("style", PStyle [("fontFamily", "'Georgia', serif")])]
      [Text "Create Stunning";
       Text " ";
       Elem "span"
        [("className", PStr "bg-gradient-to-r from-violet-600 via-fuchsia-500 to-rose-500 bg-clip-text text-transparent")]
        [Text "AI‑Powered"];
       Text " ";
       Text "Brochures in Seconds"];
     Elem "p"
      [("className", PStr ("mt-6 text-lg md:text-xl text-gray-500 max-w-2xl leading-relaxed transition-all duration-700 delay-200 " ++ (if mounted then "opacity-100 translate-y-0" else "opacity-0 translate-y-6")))]
      [Text "Turn your company information into a beautifully designed, investor-ready PDF — instantly."];
     Elem "p"
      [("className", PStr ("mt-4 text-sm text-gray-400 max-w-lg transition-all duration-700 delay-300 " ++ (if mounted then "opacity-100 translate-y-0" else "opacity-0 translate-y-6")))]
      [Text "Simply enter your company name and website URL. Our AI engine scans your data and assembles a professional, print-ready brochure tailored to your brand in moments."];
     Elem "button"
      [("onClick", PDocument scrollToForm); ("className", PStr ("mt-10 px-8 py-4 rounded-2xl bg-gradient-to-r from-violet-600 to-fuchsia-500 text-white font-bold text-base shadow-lg shadow-violet-200 hover:scale-105 hover:shadow-xl hover:shadow-violet-300 transition-all duration-300 active:scale-95 " ++ (if mounted then "opacity-100 translate-y-0" else "opacity-0 translate-y-6") ++ " transition-all duration-700 delay-400"))]
      [Text "Generate Your Brochure ↓"]].

(** The DescriptionSection component. *)
Definition DescriptionSection : Element :=
  Elem "section"
    [("className", PStr "relative z-10 py-24 px-6")]
    [Elem "div"
      [("className", PStr "max-w-3xl mx-auto text-center space-y-8")]
      [Elem "p"
        [("className", PStr "text-gray-600 text-lg leading-relaxed")]
        [Elem "span"
          [("className", PStr "font-semibold text-gray-800")]
          [Text "BrochAI's intelligent engine"];
         Text " ";
         Text "automatically analyzes your company data — pulling key details from your website, extracting your value proposition, and structuring everything into a coherent, compelling narrative. No guesswork, no lengthy briefs. Just results."];
       Elem "p"
        [("className", PStr "text-gray-600 text-lg leading-relaxed")]
        [Text "What once took a designer";
         Text " ";
         Elem "span"
          [("className", PStr "font-semibold text-gray-800")]
          [Text "hours or even days"];
         Text " ";
         Text "is now done in under a minute. BrochAI eliminates manual layout work, tedious formatting, and design revisions — giving your team back the time to focus on what matters most."];
       Elem "p"
        [("className", PStr "text-gray-600 text-lg leading-relaxed")]
        [Text "Whether you're a";
         Text " ";
         Elem "span"
          [("className", PStr "font-semibold text-gray-800")]
          [Text "startup pitching investors"];
         Text ", a marketer launching a campaign, or an agency serving multiple clients — BrochAI produces structured, pixel-perfect brochures with zero design skills required. Beautiful by default."]]].

(** The StatsStrip component and its [stats] table. *)
Definition stats : list (string * string) :=
  [("10,000+", "Brochures Generated");
   ("< 60s", "Average Generation Time");
   ("98%", "Satisfaction Rate")].

Definition StatsStrip : Element :=
  Elem "section"
    [("className", PStr "relative z-10 py-6 px-6")]
    [Elem "div"
      [("className", PStr "max-w-3xl mx-auto grid grid-cols-3 gap-6 text-center")]
      (map (fun '(value, label) =>
        Elem "div"
          [("key", PStr label); ("className", PStr "bg-white/70 backdrop-blur-sm rounded-2xl py-5 px-4 border border-white shadow-sm")]
          [Elem "div"
            [("className", PStr "text-2xl font-extrabold bg-gradient-to-r from-violet-600 to-fuchsia-500 bg-clip-text text-transparent")]
            [Text value];
           Elem "div"
            [("className", PStr "text-xs text-gray-500 mt-1 font-medium")]
            [Text label]])
        stats)].

(** The FormSection component; its inline [onClick] is
    [FormSection.onCreateAnother] applied to the setters it is given. *)
Definition FormSection (companyName : string) (setCompanyName : string -> M unit)
    (companyUrl : string) (setCompanyUrl : string -> M unit)
    (loading success : bool) (setSuccess : bool -> M unit)
    (handleSubmit : M unit) : Element :=
  let onCreateAnother :=
    FormSection.onCreateAnother setSuccess setCompanyName setCompanyUrl in
  Elem "section"
    [("id", PStr "generator"); ("className", PStr "relative z-10 py-24 px-6")]
    [Elem "div"
      [("className", PStr "max-w-lg mx-auto")]
      [Elem "div"
        [("className", PStr "text-center mb-10")]
        [Elem "h2"
          [("className", PStr "text-3xl md:text-4xl font-extrabold text-gray-900 tracking-tight"); ("style", PStyle [("fontFamily", "'Georgia', serif")])]
          [Text "Generate Your Brochure"];
         Elem "p"
          [("className", PStr "mt-3 text-gray-400 text-sm")]
          [Text "Fill in the details below. Your AI brochure will be ready in seconds."]];
       Elem "div"
        [("className", PStr "bg-white/80 backdrop-blur-xl rounded-3xl shadow-2xl shadow-violet-100 border border-white/60 p-8 md:p-10")]
        (if success
         then [Elem "div"
                 [("className", PStr "flex flex-col items-center justify-center py-10 text-center gap-4")]
                 [Elem "div"
                   [("className", PStr "w-16 h-16 rounded-full bg-gradient-to-br from-violet-500 to-fuchsia-500 flex items-center justify-center shadow-lg shadow-violet-200")]
                   [Elem "svg"
                     [("className", PStr "w-8 h-8 text-white"); ("fill", PStr "none"); ("viewBox", PStr "0 0 24 24"); ("stroke", PStr "currentColor"); ("strokeWidth", PNum "2.5")]
                     [Elem "path"
                       [("strokeLinecap", PStr "round"); ("strokeLinejoin", PStr "round"); ("d", PStr "M5 13l4 4L19 7")]
                       []]];
                  Elem "h3"
                   [("className", PStr "text-2xl font-extrabold text-gray-900")]
                   [Text "Your Brochure is Ready!"];
                  Elem "p"
                   [("className", PStr "text-gray-500 text-sm max-w-xs")]
                   [Text "Your AI-generated brochure for";
                    Text " ";
                    Elem "span"
                     [("className", PStr "font-semibold text-violet-600")]
                     [Text companyName];
                    Text " ";
                    Text "has been created successfully."];
                  Elem "button"
                   [("onClick", PAction onCreateAnother); ("className", PStr "mt-2 px-6 py-2.5 rounded-xl border border-violet-200 text-violet-600 text-sm font-semibold hover:bg-violet-50 transition-colors duration-200")]
                   [Text "Create Another"]]]
         else [Elem "form"
                 [("onSubmit", PAction handleSubmit); ("className", PStr "space-y-6")]
                 [Elem "div"
                   [("className", PStr "space-y-2")]
                   [Elem "label"
                     [("htmlFor", PStr "companyName"); ("className", PStr "block text-sm font-semibold text-gray-700")]
                     [Text "Company Name"];
                    Elem "input"
                     [("id", PStr "companyName"); ("type", PStr "text"); ("required", PBool true); ("placeholder", PStr "e.g. Acme Technologies"); ("value", PStr companyName); ("onChange", PChange (fun value => setCompanyName value)); ("disabled", PBool loading); ("className", PStr "w-full rounded-xl border border-gray-200 bg-gray-50 px-4 py-3 text-sm text-gray-800 placeholder-gray-400 focus:outline-none focus:ring-2 focus:ring-violet-400 focus:border-transparent transition-all duration-200 disabled:opacity-50 disabled:cursor-not-allowed")]
                     []];
                  Elem "div"
                   [("className", PStr "space-y-2")]
                   [Elem "label"
                     [("htmlFor", PStr "companyUrl"); ("className", PStr "block text-sm font-semibold text-gray-700")]
                     [Text "Company Website URL"];
                    Elem "input"
                     [("id", PStr "companyUrl"); ("type", PStr "url"); ("required", PBool true); ("placeholder", PStr "https://www.yourcompany.com"); ("value", PStr companyUrl); ("onChange", PChange (fun value => setCompanyUrl value)); ("disabled", PBool loading); ("className", PStr "w-full rounded-xl border border-gray-200 bg-gray-50 px-4 py-3 text-sm text-gray-800 placeholder-gray-400 focus:outline-none focus:ring-2 focus:ring-violet-400 focus:border-transparent transition-all duration-200 disabled:opacity-50 disabled:cursor-not-allowed")]
                     []];
                  Elem "button"
                   [("type", PStr "submit"); ("disabled", PBool loading); ("className", PStr "w-full py-4 rounded-xl bg-gradient-to-r from-violet-600 to-fuchsia-500 text-white font-bold text-sm tracking-wide shadow-md shadow-violet-200 hover:shadow-lg hover:shadow-violet-300 hover:scale-[1.02] active:scale-[0.98] transition-all duration-300 disabled:opacity-60 disabled:cursor-not-allowed disabled:hover:scale-100 disabled:hover:shadow-md flex items-center justify-center gap-2")]
                   (if loading
                    then [Fragment [Elem "svg"
                            [("className", PStr "w-4 h-4 animate-spin"); ("viewBox", PStr "0 0 24 24"); ("fill", PStr "none")]
                            [Elem "circle"
                              [("className", PStr "opacity-25"); ("cx", PStr "12"); ("cy", PStr "12"); ("r", PStr "10"); ("stroke", PStr "currentColor"); ("strokeWidth", PStr "4")]
                              [];
                             Elem "path"
                              [("className", PStr "opacity-75"); ("fill", PStr "currentColor"); ("d", PStr "M4 12a8 8 0 018-8v4a4 4 0 00-4 4H4z")]
                              []];
                           Text "Generating..."]]
                    else [Text "Generate My Brochure"]);
                  Elem "p"
                   [("className", PStr "text-center text-xs text-gray-400")]
                   [Text "Generation takes approximately 30–60 seconds."]]])]].

(** The Footer component. *)
Definition Footer : Element :=
  Fragment [Elem "section"
    [("className", PStr "relative z-10 py-6 px-6 text-center")]
    [Elem "p"
      [("className", PStr "text-xs text-gray-400 tracking-wide")]
      [Text "Trusted by";
       Text " ";
       Elem "span"
        [("className", PStr "font-semibold text-gray-500")]
        [Text "10,000+ companies"];
       Text " ";
       Text "worldwide  ·  No credit card required  ·  Cancel anytime"]];
   Elem "footer"
    [("className", PStr "relative z-10 py-10 px-6 text-center border-t border-gray-100 mt-6")]
    [Elem "p"
      [("className", PStr "text-xs text-gray-400")]
      [Text "© 2026 BrochAI. All rights reserved."]]].

(** What [App] returns (src/App.jsx), in the state [st]. *)
Definition App (st : AppState) : Element :=
  let companyName := Browser.companyName st in
  let companyUrl := Browser.companyUrl st in
  let loading := Browser.loading st in
  let success := Browser.success st in
  let mounted := Browser.mounted st in
  let handleSubmit := App.handleSubmit companyName companyUrl in
  Elem "div"
    [("className", PStr "relative min-h-screen overflow-x-hidden bg-gradient-to-br from-rose-50 via-white to-violet-100 font-sans")]
    [(FloatingOrb "w-96 h-96 bg-violet-300 top-[-80px] left-[-80px]");
     (FloatingOrb "w-80 h-80 bg-rose-200 top-40 right-[-60px]");
     (FloatingOrb "w-72 h-72 bg-sky-200 bottom-60 left-20");
     (FloatingOrb "w-64 h-64 bg-fuchsia-200 bottom-20 right-20");
     (HeroSection mounted scrollToForm);
     Elem "div"
      [("className", PStr "relative z-10 w-full max-w-5xl mx-auto px-6")]
      [Elem "div"
        [("className", PStr "h-px bg-gradient-to-r from-transparent via-violet-200 to-transparent")]
        []];
     DescriptionSection;
     StatsStrip;
     Elem "div"
      [("className", PStr "relative z-10 w-full max-w-5xl mx-auto px-6 mt-12")]
      [Elem "div"
        [("className", PStr "h-px bg-gradient-to-r from-transparent via-rose-200 to-transparent")]
        []];
     (FormSection companyName setCompanyName companyUrl setCompanyUrl loading success setSuccess handleSubmit);
     Footer].

Module Standalone.

(** The [FloatingOrb] of the standalone file. *)
Definition FloatingOrb (className : string) : Element :=
  Elem "div"
    [("className", PStr ("absolute rounded-full blur-3xl opacity-30 pointer-events-none " ++ className))]
    [].

(** What the standalone [BrochAI] component returns, in the state [st]. *)
Definition BrochAI (st : AppState) : Element :=
  let companyName := Browser.companyName st in
  let companyUrl := Browser.companyUrl st in
  let loading := Browser.loading st in
  let success := Browser.success st in
  let mounted := Browser.mounted st in
  let handleSubmit := BrochAI.handleSubmit in
  let onCreateAnother := BrochAI.onCreateAnother in
  Elem "div"
    [("className", PStr "relative min-h-screen overflow-x-hidden bg-gradient-to-br from-rose-50 via-white to-violet-100 font-sans")]
    [(FloatingOrb "w-96 h-96 bg-violet-300 top-[-80px] left-[-80px]");
     (FloatingOrb "w-80 h-80 bg-rose-200 top-40 right-[-60px]");
     (FloatingOrb "w-72 h-72 bg-sky-200 bottom-60 left-20");
     (FloatingOrb "w-64 h-64 bg-fuchsia-200 bottom-20 right-20");
     Elem "section"
      [("className", PStr "relative z-10 flex flex-col items-center justify-center text-center px-6 pt-28 pb-24")]
      [Elem "div"
        [("className", PStr ("inline-flex items-center gap-2 px-4 py-1.5 rounded-full bg-white border border-violet-200 shadow-sm text-xs font-semibold tracking-widest text-violet-600 uppercase mb-8 transition-all duration-700 " ++ (if mounted then "opacity-100 translate-y-0" else "opacity-0 translate-y-4")))]
        [Elem "span"
          [("className", PStr "w-2 h-2 rounded-full bg-violet-500 animate-pulse")]
          [];
         Text "Powered by AI"];
       Elem "h1"
        [("className", PStr ("text-5xl md:text-7xl font-extrabold leading-tight tracking-tight text-gray-900 max-w-4xl transition-all duration-700 delay-100 " ++ (if mounted then "opacity-100 translate-y-0" else "opacity-0 translate-y-6"))); ("style", PStyle [("fontFamily", "'Georgia', serif")])]
        [Text "Create Stunning";
         Text " ";
         Elem "span"
          [("className", PStr "bg-gradient-to-r from-violet-600 via-fuchsia-500 to-rose-500 bg-clip-text text-transparent")]
          [Text "AI‑Powered"];
         Text " ";
         Text "Brochures in Seconds"];
       Elem "p"
        [("className", PStr ("mt-6 text-lg md:text-xl text-gray-500 max-w-2xl leading-relaxed transition-all duration-700 delay-200 " ++ (if mounted then "opacity-100 translate-y-0" else "opacity-0 translate-y-6")))]
        [Text "Turn your company information into a beautifully designed, investor-ready PDF — instantly."];
       Elem "p"
        [("className", PStr ("mt-4 text-sm text-gray-400 max-w-lg transition-all duration-700 delay-300 " ++ (if mounted then "opacity-100 translate-y-0" else "opacity-0 translate-y-6")))]
        [Text "Simply enter your company name and website URL. Our AI engine scans your data and assembles a professional, print-ready brochure tailored to your brand in moments."];
       Elem "button"
        [("onClick", PDocument scrollToForm); ("className", PStr ("mt-10 px-8 py-4 rounded-2xl bg-gradient-to-r from-violet-600 to-fuchsia-500 text-white font-bold text-base shadow-lg shadow-violet-200 hover:scale-105 hover:shadow-xl hover:shadow-violet-300 transition-all duration-300 active:scale-95 " ++ (if mounted then "opacity-100 translate-y-0" else "opacity-0 translate-y-6") ++ " transition-all duration-700 delay-400"))]
        [Text "Generate Your Brochure ↓"]];
     Elem "div"
      [("className", PStr "relative z-10 w-full max-w-5xl mx-auto px-6")]
      [Elem "div"
        [("className", PStr "h-px bg-gradient-to-r from-transparent via-violet-200 to-transparent")]
        []];
     Elem "section"
      [("className", PStr "relative z-10 py-24 px-6")]
      [Elem "div"
        [("className", PStr "max-w-3xl mx-auto text-center space-y-8")]
        [Elem "p"
          [("className", PStr "text-gray-600 text-lg leading-relaxed")]
          [Elem "span"
            [("className", PStr "font-semibold text-gray-800")]
            [Text "BrochAI's intelligent engine"];
           Text " ";
           Text "automatically analyzes your company data — pulling key details from your website, extracting your value proposition, and structuring everything into a coherent, compelling narrative. No guesswork, no lengthy briefs. Just results."];
         Elem "p"
          [("className", PStr "text-gray-600 text-lg leading-relaxed")]
          [Text "What once took a designer";
           Text " ";
           Elem "span"
            [("className", PStr "font-semibold text-gray-800")]
            [Text "hours or even days"];
           Text " ";
           Text "is now done in under a minute. BrochAI eliminates manual layout work, tedious formatting, and design revisions — giving your team back the time to focus on what matters most."];
         Elem "p"
          [("className", PStr "text-gray-600 text-lg leading-relaxed")]
          [Text "Whether you're a";
           Text " ";
           Elem "span"
            [("className", PStr "font-semibold text-gray-800")]
            [Text "startup pitching investors"];
           Text ", a marketer launching a campaign, or an agency serving multiple clients — BrochAI produces structured, pixel-perfect brochures with zero design skills required. Beautiful by default."]]];
     Elem "section"
      [("className", PStr "relative z-10 py-6 px-6")]
      [Elem "div"
        [("className", PStr "max-w-3xl mx-auto grid grid-cols-3 gap-6 text-center")]
        (map (fun '(value, label) =>
          Elem "div"
            [("key", PStr label); ("className", PStr "bg-white/70 backdrop-blur-sm rounded-2xl py-5 px-4 border border-white shadow-sm")]
            [Elem "div"
              [("className", PStr "text-2xl font-extrabold bg-gradient-to-r from-violet-600 to-fuchsia-500 bg-clip-text text-transparent")]
              [Text value];
             Elem "div"
              [("className", PStr "text-xs text-gray-500 mt-1 font-medium")]
              [Text label]])
          [("10,000+", "Brochures Generated");
           ("< 60s", "Average Generation Time");
           ("98%", "Satisfaction Rate")])];
     Elem "div"
      [("className", PStr "relative z-10 w-full max-w-5xl mx-auto px-6 mt-12")]
      [Elem "div"
        [("className", PStr "h-px bg-gradient-to-r from-transparent via-rose-200 to-transparent")]
        []];
     Elem "section"
      [("id", PStr "generator"); ("className", PStr "relative z-10 py-24 px-6")]
      [Elem "div"
        [("className", PStr "max-w-lg mx-auto")]
        [Elem "div"
          [("className", PStr "text-center mb-10")]
          [Elem "h2"
            [("className", PStr "text-3xl md:text-4xl font-extrabold text-gray-900 tracking-tight"); ("style", PStyle [("fontFamily", "'Georgia', serif")])]
            [Text "Generate Your Brochure"];
           Elem "p"
            [("className", PStr "mt-3 text-gray-400 text-sm")]
            [Text "Fill in the details below. Your AI brochure will be ready in seconds."]];
         Elem "div"
          [("className", PStr "bg-white/80 backdrop-blur-xl rounded-3xl shadow-2xl shadow-violet-100 border border-white/60 p-8 md:p-10")]
          (if success
           then [Elem "div"
                   [("className", PStr "flex flex-col items-center justify-center py-10 text-center gap-4")]
                   [Elem "div"
                     [("className", PStr "w-16 h-16 rounded-full bg-gradient-to-br from-violet-500 to-fuchsia-500 flex items-center justify-center shadow-lg shadow-violet-200")]
                     [Elem "svg"
                       [("className", PStr "w-8 h-8 text-white"); ("fill", PStr "none"); ("viewBox", PStr "0 0 24 24"); ("stroke", PStr "currentColor"); ("strokeWidth", PNum "2.5")]
                       [Elem "path"
                         [("strokeLinecap", PStr "round"); ("strokeLinejoin", PStr "round"); ("d", PStr "M5 13l4 4L19 7")]
                         []]];
                    Elem "h3"
                     [("className", PStr "text-2xl font-extrabold text-gray-900")]
                     [Text "Your Brochure is Ready!"];
                    Elem "p"
                     [("className", PStr "text-gray-500 text-sm max-w-xs")]
                     [Text "Your AI-generated brochure for";
                      Text " ";
                      Elem "span"
                       [("className", PStr "font-semibold text-violet-600")]
                       [Text companyName];
                      Text " ";
                      Text "has been created successfully."];
                    Elem "button"
                     [("onClick", PAction onCreateAnother); ("className", PStr "mt-2 px-6 py-2.5 rounded-xl border border-violet-200 text-violet-600 text-sm font-semibold hover:bg-violet-50 transition-colors duration-200")]
                     [Text "Create Another"]]]
           else [Elem "form"
                   [("onSubmit", PAction handleSubmit); ("className", PStr "space-y-6")]
                   [Elem "div"
                     [("className", PStr "space-y-2")]
                     [Elem "label"
                       [("htmlFor", PStr "companyName"); ("className", PStr "block text-sm font-semibold text-gray-700")]
                       [Text "Company Name"];
                      Elem "input"
                       [("id", PStr "companyName"); ("type", PStr "text"); ("required", PBool true); ("placeholder", PStr "e.g. Acme Technologies"); ("value", PStr companyName); ("onChange", PChange (fun value => setCompanyName value)); ("disabled", PBool loading); ("className", PStr "w-full rounded-xl border border-gray-200 bg-gray-50 px-4 py-3 text-sm text-gray-800 placeholder-gray-400 focus:outline-none focus:ring-2 focus:ring-violet-400 focus:border-transparent transition-all duration-200 disabled:opacity-50 disabled:cursor-not-allowed")]
                       []];
                    Elem "div"
                     [("className", PStr "space-y-2")]
                     [Elem "label"
                       [("htmlFor", PStr "companyUrl"); ("className", PStr "block text-sm font-semibold text-gray-700")]
                       [Text "Company Website URL"];
                      Elem "input"
                       [("id", PStr "companyUrl"); ("type", PStr "url"); ("required", PBool true); ("placeholder", PStr "https://www.yourcompany.com"); ("value", PStr companyUrl); ("onChange", PChange (fun value => setCompanyUrl value)); ("disabled", PBool loading); ("className", PStr "w-full rounded-xl border border-gray-200 bg-gray-50 px-4 py-3 text-sm text-gray-800 placeholder-gray-400 focus:outline-none focus:ring-2 focus:ring-violet-400 focus:border-transparent transition-all duration-200 disabled:opacity-50 disabled:cursor-not-allowed")]
                       []];
                    Elem "button"
                     [("type", PStr "submit"); ("disabled", PBool loading); ("className", PStr "w-full py-4 rounded-xl bg-gradient-to-r from-violet-600 to-fuchsia-500 text-white font-bold text-sm tracking-wide shadow-md shadow-violet-200 hover:shadow-lg hover:shadow-violet-300 hover:scale-[1.02] active:scale-[0.98] transition-all duration-300 disabled:opacity-60 disabled:cursor-not-allowed disabled:hover:scale-100 disabled:hover:shadow-md flex items-center justify-center gap-2")]
                     (if loading
                      then [Fragment [Elem "svg"
                              [("className", PStr "w-4 h-4 animate-spin"); ("viewBox", PStr "0 0 24 24"); ("fill", PStr "none")]
                              [Elem "circle"
                                [("className", PStr "opacity-25"); ("cx", PStr "12"); ("cy", PStr "12"); ("r", PStr "10"); ("stroke", PStr "currentColor"); ("strokeWidth", PStr "4")]
                                [];
                               Elem "path"
                                [("className", PStr "opacity-75"); ("fill", PStr "currentColor"); ("d", PStr "M4 12a8 8 0 018-8v4a4 4 0 00-4 4H4z")]
                                []];
                             Text "Generating..."]]
                      else [Text "Generate My Brochure"]);
                    Elem "p"
                     [("className", PStr "text-center text-xs text-gray-400")]
                     [Text "Generation takes approximately 30–60 seconds."]]])]];
     Elem "section"
      [("className", PStr "relative z-10 py-6 px-6 text-center")]
      [Elem "p"
        [("className", PStr "text-xs text-gray-400 tracking-wide")]
        [Text "Trusted by";
         Text " ";
         Elem "span"
          [("className", PStr "font-semibold text-gray-500")]
          [Text "10,000+ companies"];
         Text " ";
         Text "worldwide  ·  No credit card required  ·  Cancel anytime"]];
     Elem "footer"
      [("className", PStr "relative z-10 py-10 px-6 text-center border-t border-gray-100 mt-6")]
      [Elem "p"
        [("className", PStr "text-xs text-gray-400")]
        [Text "© 2026 BrochAI. All rights reserved."]]].

End Standalone.

End Views.

(** ** [handleSubmit] of App, cut at its two [await]s *)

Module AppAsync.
Import Browser Browser.Notations.

(** Up to the first [await]: the [fetch] call is made, its promise is
    pending. *)
Definition start (companyName companyUrl : string) : M unit :=
  preventDefault ;;
  setLoading true ;;
  setSuccess false ;;
  emit (EvFetch (App.generate_request companyName companyUrl)).

(** The [catch] block. *)
Definition on_error (err : Exn) : M unit :=
  platform StConsoleError (EvConsoleError err) ;;
  platform StAlert (EvAlert "Error generating brochure. Check backend logs.").

(** [e] is thrown inside the [try] block: [catch], then [finally]. *)
Definition fail_with (e : Exn) : M unit :=
  try_catch_finally (throw e) on_error (setLoading false).

(** A settled promise handed to [await]. *)
Definition settled {A} (o : Exn + A) : M A :=
  fun _ s =>
    match o with
    | inl e => (Throw e, s)
    | inr a => (Normal a, s)
    end.

(** From the first [await] to the second: the result is the response whose
    [blob()] promise is pending, or nothing when the run is over. *)
Definition after_fetch (o : Exn + Response) : M (option Response) :=
  match o with
  | inl e => fail_with e ;; ret None
  | inr response =>
      if negb (ok response)
      then fail_with (ErrorObj "Failed to generate brochure") ;; ret None
      else ret (Some response)
  end.

(** From the second [await] to the end. *)
Definition after_blob (companyName : string) (o : Exn + Blob) : M unit :=
  try_catch_finally
    (blob <- settled o ;;
     url <- createObjectURL blob ;;
     a <- createElement "a" ;;
     let a1 := {| href := url; download := download a |} in
     let a2 := {| href := href a1; download := companyName ++ "_brochure.pdf" |} in
     platform StAppendChild (EvAppendChild a2) ;;
     platform StClick (EvClick a2) ;;
     platform StRemove (EvRemove a2) ;;
     platform StRevokeObjectURL (EvRevokeObjectURL url) ;;
     setSuccess true)
    on_error
    (setLoading false).

(** The three parts in sequence, each promise settling as the world says. *)
Definition in_parts (companyName companyUrl : string) : M unit :=
  fun w =>
    (start companyName companyUrl ;;
     pending <- after_fetch
                  (fetch_settles w (App.generate_request companyName companyUrl)) ;;
     match pending with
     | Some response => after_blob companyName (blob response)
     | None => ret tt
     end) w.

(** The platform calls between reading the blob and [setSuccess(true)]. *)
Definition download_steps : list Step :=
  [StCreateObjectURL; StCreateElement; StAppendChild; StClick; StRemove;
   StRevokeObjectURL].

Fixpoint first_fault (w : World) (steps : list Step) : option Exn :=
  match steps with
  | [] => None
  | st :: r =>
      match fault w st with
      | Some e => Some e
      | None => first_fault w r
      end
  end.

(** The error that ends the [try] block of a run, if any. *)
Definition failure_cause (w : World) (companyName companyUrl : string) : option Exn :=
  match fetch_settles w (App.generate_request companyName companyUrl) with
  | inl e => Some e
  | inr response =>
      if negb (ok response) then Some (ErrorObj "Failed to generate brochure")
      else match blob response with
           | inl e => Some e
           | inr _ => first_fault w download_steps
           end
  end.

(** The errors passed to [console.error]. *)
Fixpoint console_errors (evs : list Event) : list Exn :=
  match evs with
  | [] => []
  | EvConsoleError e :: t => e :: console_errors t
  | _ :: t => console_errors t
  end.

(** The URLs passed to [revokeObjectURL]. *)
Fixpoint revoked (evs : list Event) : list string :=
  match evs with
  | [] => []
  | EvRevokeObjectURL u :: t => u :: revoked t
  | _ :: t => revoked t
  end.

End AppAsync.

(** ** A user in front of the page *)

Module Session.
Import Browser React.

Definition remove_nth {A} (n : nat) (l : list A) : list A :=
  (firstn n l ++ skipn (S n) l)%list.

(** A promise of a run of [handleSubmit] that has not settled yet. *)
Inductive Pending : Type :=
| AwaitFetch (companyName : string) (r : Request)
| AwaitBlob (companyName : string) (response : Response).

(** The page of App: its store and the runs of [handleSubmit] in flight. *)
Record Page : Type := {
  store : Store;
  inflight : list Pending
}.

(** What happens next: the user sets off the n-th interaction the page
    offers (typing [typed] if it is a text field), the n-th pending promise
    settles, or the n-th pending timer fires. *)
Inductive Action : Type :=
| User (n : nat) (typed : string)
| Settle (n : nat)
| TimerFires (n : nat).

(** The store after the first render and its effect. *)
Definition mounted_store (w : World) : Store :=
  snd (Views.onMount w {| react := Views.initial; trace := []; timers := [] |}).

Definition fire_nth (n : nat) (s : Store) : Store :=
  match nth_error (timers s) n with
  | Some t =>
      {| react := react (fire t s); trace := trace (fire t s);
         timers := remove_nth n (timers s) |}
  | None => s
  end.

(** One action on the page of App.  A submission runs [handleSubmit] up to
    its first [await]; the rest runs when the promises settle. *)
Definition app_act (w : World) (p : Page) (a : Action) : Page :=
  let st := react (store p) in
  match a with
  | User n typed =>
      match nth_error (interactions (Views.App st)) n with
      | Some (Type_ h) =>
          {| store := snd (h typed w (store p)); inflight := inflight p |}
      | Some (Click h) =>
          {| store := snd (h w (store p)); inflight := inflight p |}
      | Some (Submit _) =>
          {| store := snd (AppAsync.start (companyName st) (companyUrl st) w (store p));
             inflight := (inflight p ++
                          [AwaitFetch (companyName st)
                             (App.generate_request (companyName st) (companyUrl st))])%list |}
      | Some (ClickDocument _) | None => p
      end
  | Settle n =>
      match nth_error (inflight p) n with
      | Some (AwaitFetch cn r) =>
          let (c, s') := AppAsync.after_fetch (fetch_settles w r) w (store p) in
          {| store := s';
             inflight := (remove_nth n (inflight p) ++
                          match c with
                          | Normal (Some response) => [AwaitBlob cn response]
                          | _ => []
                          end)%list |}
      | Some (AwaitBlob cn response) =>
          {| store := snd (AppAsync.after_blob cn (blob response) w (store p));
             inflight := remove_nth n (inflight p) |}
      | None => p
      end
  | TimerFires n => {| store := fire_nth n (store p); inflight := inflight p |}
  end.

Definition app_session (w : World) (acts : list Action) : Page :=
  fold_left (app_act w) acts {| store := mounted_store w; inflight := [] |}.

(** One action on the page of the standalone component: its handlers run
    to their end; it awaits nothing. *)
Definition standalone_act (w : World) (s : Store) (a : Action) : Store :=
  match a with
  | User n typed =>
      match nth_error (interactions (Views.Standalone.BrochAI (react s))) n with
      | Some (Type_ h) => snd (h typed w s)
      | Some (Click h) | Some (Submit h) => snd (h w s)
      | Some (ClickDocument _) | None => s
      end
  | Settle _ => s
  | TimerFires n => fire_nth n s
  end.

Definition standalone_session (w : World) (acts : list Action) : Store :=
  fold_left (standalone_act w) acts (mounted_store w).

(** The last file handed to the user. *)
Definition last_download (evs : list Event) : option Anchor :=
  last (map Some (Observe.downloads evs)) None.

(** What holds of the page of App between two actions: no timer is
    pending; at most one run is in flight, it is the one [loading] stands
    for and it was started with the name now in the field; and a page that
    says [success] has last handed over the file named after that name. *)
Definition app_invariant (p : Page) : Prop :=
  let st := react (store p) in
  timers (store p) = [] /\
  match inflight p with
  | [] => loading st = false
  | [AwaitFetch cn r] =>
      loading st = true /\ success st = false /\ cn = companyName st /\
      r = App.generate_request cn (companyUrl st)
  | [AwaitBlob cn _] =>
      loading st = true /\ success st = false /\ cn = companyName st
  | _ :: _ :: _ => False
  end /\
  (success st = true ->
   exists a, last_download (trace (store p)) = Some a /\
             download a = companyName st ++ "_brochure.pdf").

(** What holds of the standalone page between two actions: nothing was
    requested or handed over; at most one timer is pending, the one
    [loading] stands for. *)
Definition standalone_invariant (s : Store) : Prop :=
  Observe.requests (trace s) = [] /\
  Observe.downloads (trace s) = [] /\
  match timers s with
  | [] => loading (react s) = false
  | [t] => t = {| delay := 2000; callback := BrochAI.onTimeout |} /\
           loading (react s) = true /\ success (react s) = false
  | _ :: _ :: _ => False
  end.

(** Every label of the tree names, with [htmlFor], an input of the tree. *)
Definition label_bound (e : Element) (n : string * list (string * PropValue)) : bool :=
  negb (is_tag "label" n) ||
  match string_prop "htmlFor" (snd n) with
  | Some id =>
      match getElementById id e with
      | Some m => is_tag "input" m
      | None => false
      end
  | None => false
  end.

(** A world in which the backend answers with a PDF but clicking the
    link throws. *)
Definition click_fails_world : World :=
  {| fetch_settles := fun _ => inr {| ok := true; blob := inr [37; 80; 68; 70] |};
     object_url := fun _ => "blob:brochure";
     fault := fun st => match st with
                        | StClick => Some (Foreign "InvalidStateError")
                        | _ => None
                        end |}.

End Session.

(** * Properties of the front end *)

Module JSONFacts.
Import JSON JSONRead.

(** Reading back one escaped character. *)
Lemma read_escape_char (c : ascii) (t : string) :
  read_chars Plain (escape_char c ++ t) = push c (read_chars Plain t).
Proof.
  destruct c as [[] [] [] [] [] [] [] []]; reflexivity.
Qed.

Lemma append_assoc (a b c : string) : (a ++ b) ++ c = a ++ (b ++ c).
Proof.
  induction a as [|x a IH]; simpl; [reflexivity | now rewrite IH].
Qed.

Lemma read_escape (s rest : string) :
  read_chars Plain (escape s ++ String dquote rest) = Some (s, rest).
Proof.
  induction s as [|c s IH]; simpl.
  - reflexivity.
  - rewrite append_assoc, read_escape_char, IH. reflexivity.
Qed.

Lemma read_quote (s rest : string) :
  read_string (quote s ++ rest) = Some (s, rest).
Proof.
  unfold quote. simpl. rewrite append_assoc. simpl. apply read_escape.
Qed.

Lemma length_append (a b : string) :
  String.length (a ++ b) = String.length a + String.length b.
Proof.
  induction a as [|x a IH]; simpl; [reflexivity | now rewrite IH].
Qed.

Lemma quote_length (s : string) : 2 <= String.length (quote s).
Proof.
  unfold quote. simpl. rewrite length_append. simpl. lia.
Qed.

Lemma members_length (fields : list (string * string)) :
  List.length fields <= String.length (members fields).
Proof.
  induction fields as [|[k x] r IH]; [simpl; lia|].
  change (members ((k, x) :: r))
    with (quote k ++ ":" ++ quote x ++
          match r with [] => EmptyString | _ :: _ => "," ++ members r end).
  rewrite !length_append.
  pose proof (quote_length k). pose proof (quote_length x).
  destruct r as [|p r'].
  - simpl. lia.
  - rewrite length_append. simpl List.length in *. lia.
Qed.

Lemma read_member_last (k x : string) (n : nat) :
  read_members n (quote k ++ ":" ++ quote x ++ "}") = Some [(k, x)].
Proof.
  destruct n; cbn [read_members]; rewrite read_quote;
    cbn [expect append Ascii.eqb Bool.eqb]; rewrite read_quote; reflexivity.
Qed.

Lemma read_member_more (k x rest : string) (n : nat) :
  read_members (S n) (quote k ++ ":" ++ quote x ++ "," ++ rest)
  = match read_members n rest with
    | Some l => Some ((k, x) :: l)
    | None => None
    end.
Proof.
  cbn [read_members]. rewrite read_quote.
  cbn [expect append Ascii.eqb Bool.eqb]. rewrite read_quote. reflexivity.
Qed.

Lemma read_members_ok (fields : list (string * string)) :
  fields <> [] ->
  forall n, List.length fields <= S n ->
  read_members n (members fields ++ "}") = Some fields.
Proof.
  induction fields as [|[k x] r IH]; intros Hne n Hn; [congruence|].
  destruct r as [|p r'].
  - change (members [(k, x)]) with (quote k ++ ":" ++ quote x ++ EmptyString).
    rewrite !append_assoc. apply read_member_last.
  - destruct n as [|n']; [simpl in Hn; lia|].
    change (members ((k, x) :: p :: r'))
      with (quote k ++ ":" ++ quote x ++ "," ++ members (p :: r')).
    rewrite !append_assoc, read_member_more.
    rewrite IH; [reflexivity | congruence | simpl in Hn |- *; lia].
Qed.

(** [JSON.stringify] of an object of strings reads back as its properties. *)
Lemma read_stringify (fields : list (string * string)) :
  read_object (stringify (JObject fields)) = Some fields.
Proof.
  destruct fields as [|[k x] r]; [reflexivity|].
  unfold stringify.
  assert (Hm : exists c t, members ((k, x) :: r) = String dquote (String c t)).
  { simpl. destruct (escape k) as [|c t]; simpl;
      eexists; eexists; reflexivity. }
  destruct Hm as (c & t & Hm).
  assert (Hs : read_object ("{" ++ members ((k, x) :: r) ++ "}")
               = read_members (String.length (members ((k, x) :: r) ++ "}"))
                   (members ((k, x) :: r) ++ "}")).
  { rewrite Hm. reflexivity. }
  rewrite Hs. apply read_members_ok; [congruence|].
  rewrite length_append. pose proof (members_length ((k, x) :: r)).
  simpl String.length at 2. lia.
Qed.

End JSONFacts.

Module AppFacts.
Import Browser Observe Fixtures.

(** Unfolds a handler down to the case analyses on what the world does. *)
Ltac unfold_handler :=
  cbv [App.handleSubmit BrochAI.handleSubmit bind ret throw try_catch_finally
       emit update platform setLoading setSuccess setCompanyName setCompanyUrl
       preventDefault fetch response_blob createObjectURL createElement
       setTimeout snd fst].

(** Splits on the innermost scrutinee that blocks evaluation. *)
Ltac split_world :=
  match goal with
  | |- context [match ?x with _ => _ end] =>
      lazymatch x with
      | context [match _ with _ => _ end] => fail
      | _ => destruct x eqn:?
      end
  end.

Ltac run_handler := unfold_handler; repeat (cbn; split_world); cbn.

(** C2: when the response is not ok, the run ends with [success] false,
    no file was handed to the user and no object URL was made for a blob;
    the user is shown the failure alert (if [console.error] returns). *)
Theorem not_ok_delivers_nothing (cn cu : string) (w : World) (s : Store)
    (resp : Response) :
  fetch_settles w (App.generate_request cn cu) = inr resp ->
  ok resp = false ->
  let s' := snd (App.handleSubmit cn cu w s) in
  success (react s') = false /\
  exists evs, trace s' = (trace s ++ evs)%list /\
    downloads evs = [] /\
    object_urls evs = [] /\
    (fault w StConsoleError = None -> alerts evs = [failure_alert]).
Proof.
  intros Hfetch Hok. unfold_handler. cbn. rewrite Hfetch. cbn.
  rewrite Hok. cbn.
  repeat (split_world; cbn); (split; [reflexivity|]);
    eexists; (split; [rewrite <- !app_assoc; reflexivity|]); cbn;
    repeat split; congruence.
Qed.

Lemma not_ok_delivers_nothing_witness :
  success (react (snd (App.handleSubmit "Acme" "https://acme.test"
                         failing_world fresh_store))) = false /\
  exists evs,
    trace (snd (App.handleSubmit "Acme" "https://acme.test"
                  failing_world fresh_store)) = (trace fresh_store ++ evs)%list /\
    downloads evs = [] /\
    object_urls evs = [] /\
    (fault failing_world StConsoleError = None -> alerts evs = [failure_alert]).
Proof.
  apply (not_ok_delivers_nothing "Acme" "https://acme.test" failing_world
           fresh_store {| ok := false; blob := inr [] |});
    reflexivity.
Defined.

(** C3: every submission sends exactly one request; it is a POST to
    /generate-brochure whose body is a JSON object with the two
    properties companyName and companyUrl, holding the entered strings. *)
Theorem submit_sends_post_with_two_fields (cn cu : string) (w : World)
    (s : Store) :
  exists evs r,
    trace (snd (App.handleSubmit cn cu w s)) = (trace s ++ evs)%list /\
    requests evs = [r] /\
    req_method r = "POST" /\
    req_url r = "/generate-brochure" /\
    req_headers r = [("Content-Type", "application/json")] /\
    req_body r = JSON.stringify (JSON.JObject [("companyName", cn); ("companyUrl", cu)]) /\
    JSONRead.read_object (req_body r) = Some [("companyName", cn); ("companyUrl", cu)].
Proof.
  exists (skipn (List.length (trace s)) (trace (snd (App.handleSubmit cn cu w s)))).
  exists (App.generate_request cn cu).
  assert (Hev : exists evs,
             trace (snd (App.handleSubmit cn cu w s)) = (trace s ++ evs)%list /\
             requests evs = [App.generate_request cn cu]).
  { unfold_handler. generalize (App.generate_request cn cu). intros r.
    repeat (cbn; split_world); cbn;
      eexists; (split; [rewrite <- !app_assoc; reflexivity|]); reflexivity. }
  destruct Hev as (evs & Htr & Hreq).
  rewrite Htr, skipn_app, skipn_all, Nat.sub_diag. cbn [skipn app].
  repeat split; try assumption; try reflexivity.
  unfold App.generate_request. cbn [req_body].
  apply JSONFacts.read_stringify.
Qed.

(** C4: a run that ends with [success] true handed exactly one file to
    the user, named companyName followed by _brochure.pdf, and the file is
    the blob of the response. *)
Theorem download_is_named_after_company (cn cu : string) (w : World)
    (s : Store) :
  success (react (snd (App.handleSubmit cn cu w s))) = true ->
  exists evs resp b,
    trace (snd (App.handleSubmit cn cu w s)) = (trace s ++ evs)%list /\
    fetch_settles w (App.generate_request cn cu) = inr resp /\
    blob resp = inr b /\
    object_urls evs = [b] /\
    downloads evs = [{| href := object_url w b;
                        download := cn ++ "_brochure.pdf" |}].
Proof.
  unfold_handler. generalize (App.generate_request cn cu). intros r.
  repeat (cbn; split_world); cbn; intros Hs; try discriminate Hs;
    do 3 eexists;
    (split; [rewrite <- !app_assoc; reflexivity|]);
    (split; [reflexivity|]); (split; [eassumption|]);
    split; reflexivity.
Qed.

Lemma download_is_named_after_company_witness :
  exists evs resp b,
    trace (snd (App.handleSubmit "Acme" "https://acme.test" happy_world fresh_store))
      = (trace fresh_store ++ evs)%list /\
    fetch_settles happy_world (App.generate_request "Acme" "https://acme.test") = inr resp /\
    blob resp = inr b /\
    object_urls evs = [b] /\
    downloads evs = [{| href := object_url happy_world b;
                        download := "Acme" ++ "_brochure.pdf" |}].
Proof.
  apply (download_is_named_after_company "Acme" "https://acme.test"
           happy_world fresh_store).
  reflexivity.
Defined.

(** C8: however the request settles and whichever step throws, the run
    of the submit handler ends with [loading] false. *)
Theorem handleSubmit_ends_not_loading (cn cu : string) (w : World) (s : Store) :
  loading (react (snd (App.handleSubmit cn cu w s))) = false.
Proof.
  run_handler; reflexivity.
Qed.

(** C9: "Create Another", in FormSection as rendered by App and in the
    standalone component, sets [success] to false and both fields to the
    empty string; [loading], [mounted], the effects and the pending timers
    are unchanged and nothing is thrown. *)
Theorem create_another_resets_three_cells (w : World) (s : Store) :
  AppView.onCreateAnother w s
    = (Normal tt, {| react := reset_form (react s);
                     trace := trace s; timers := timers s |}) /\
  BrochAI.onCreateAnother w s
    = (Normal tt, {| react := reset_form (react s);
                     trace := trace s; timers := timers s |}).
Proof.
  split; reflexivity.
Qed.

(** C10: the standalone handler sends no request and hands over no file;
    it only schedules, 2000 ms ahead, a callback that sets [success] to
    true.  The handler of App sends a request in every run, can end with
    [success] false, and ends with [success] true only after a file was
    handed over: the two are not equivalent. *)
Theorem standalone_submit_is_a_stub :
  (forall (w : World) (s : Store),
      let s1 := {| react := set_success false (set_loading true (react s));
                   trace := (trace s ++ [EvPreventDefault; EvSetTimeout 2000])%list;
                   timers := (timers s ++ [{| delay := 2000;
                                             callback := BrochAI.onTimeout |}])%list |} in
      BrochAI.handleSubmit w s = (Normal tt, s1) /\
      requests [EvPreventDefault; EvSetTimeout 2000] = [] /\
      downloads [EvPreventDefault; EvSetTimeout 2000] = [] /\
      success (react (fire {| delay := 2000; callback := BrochAI.onTimeout |} s1)) = true /\
      loading (react (fire {| delay := 2000; callback := BrochAI.onTimeout |} s1)) = false) /\
  (forall (cn cu : string) (w : World) (s : Store),
      exists evs,
        trace (snd (App.handleSubmit cn cu w s)) = (trace s ++ evs)%list /\
        requests evs = [App.generate_request cn cu] /\
        timers (snd (App.handleSubmit cn cu w s)) = timers s /\
        (success (react (snd (App.handleSubmit cn cu w s))) = true ->
         downloads evs <> [])) /\
  success (react (snd (App.handleSubmit "Acme" "https://acme.test"
                         failing_world fresh_store))) = false.
Proof.
  split; [|split].
  - intros w s. cbn. repeat split; try reflexivity.
    unfold_handler. cbn. rewrite <- app_assoc. reflexivity.
  - intros cn cu w s. unfold_handler.
    generalize (App.generate_request cn cu). intros r.
    repeat (cbn; split_world); cbn;
      eexists; (split; [rewrite <- !app_assoc; reflexivity|]);
      (split; [reflexivity|]); (split; [reflexivity|]);
      intros Hs; try discriminate Hs; cbn; congruence.
  - reflexivity.
Qed.

End AppFacts.

(** * Properties of the pipeline model *)

Module EnricherFacts.
Import Pipeline.
Local Open Scope nat_scope.

Lemma filter_nil_forall {A} (p : A -> bool) (l : list A) :
  filter p l = [] -> Forall (fun x => p x = false) l.
Proof.
  induction l as [|x l IH]; simpl; intros H; [constructor|].
  destruct (p x) eqn:Hx; [discriminate|]. constructor; auto.
Qed.

Lemma forall_filter_nil {A} (p : A -> bool) (l : list A) :
  Forall (fun x => p x = false) l -> filter p l = [].
Proof.
  induction 1 as [|x r Hx _ IH]; simpl; [reflexivity|]. now rewrite Hx.
Qed.

Lemma cover_not_closing (s : Section) : is_cover s = true -> is_closing s = false.
Proof.
  unfold is_cover, is_closing. destruct (sectionType s); congruence.
Qed.

Lemma middle_type (s : Section) :
  is_cover s = false -> is_closing s = false ->
  sectionType s = About \/ sectionType s = Offerings \/
  sectionType s = ValueProposition.
Proof.
  unfold is_cover, is_closing. destruct (sectionType s); intros; auto; discriminate.
Qed.

(** What the check accepts: a cover, then sections that are neither
    cover nor closing, then one closing section. *)
Lemma valid_sections_shape (l : BrochureContent) :
  valid_sections l = true ->
  exists c mid z,
    l = c :: (mid ++ [z])%list /\
    is_cover c = true /\
    is_closing z = true /\
    Forall (fun s => is_cover s = false /\ is_closing s = false) mid.
Proof.
  unfold valid_sections. destruct l as [|c rest]; [discriminate|].
  destruct rest as [|x rest']; [rewrite andb_false_r; discriminate|].
  intros H. apply andb_prop in H. destruct H as [H Hz].
  apply andb_prop in H. destruct H as [Hc Hcount].
  apply andb_prop in Hz. destruct Hz as [Hz Hzcount].
  apply Nat.eqb_eq in Hcount. apply Nat.eqb_eq in Hzcount.
  assert (Hrest : (x :: rest') = (removelast (x :: rest') ++ [last (x :: rest') c])%list).
  { apply app_removelast_last. discriminate. }
  set (mid := removelast (x :: rest')) in *.
  set (z := last (x :: rest') c) in *.
  exists c, mid, z. rewrite Hrest in Hcount, Hzcount |- *.
  unfold count in Hcount, Hzcount. simpl filter in Hcount, Hzcount.
  rewrite Hc in Hcount. rewrite (cover_not_closing c Hc) in Hzcount.
  rewrite filter_app in Hcount, Hzcount. simpl filter in Hcount, Hzcount.
  rewrite Hz in Hzcount.
  simpl List.length in Hcount. rewrite length_app in Hcount, Hzcount.
  simpl List.length in Hzcount.
  assert (Hm1 : filter is_cover mid = []).
  { destruct (filter is_cover mid); [reflexivity | simpl in Hcount; lia]. }
  assert (Hm2 : filter is_closing mid = []).
  { destruct (filter is_closing mid); [reflexivity | simpl in Hzcount; lia]. }
  repeat split; try assumption.
  apply filter_nil_forall in Hm1. apply filter_nil_forall in Hm2.
  rewrite Forall_forall in *. intros s Hs. split; auto.
Qed.

(** Conversely, every sequence of that shape passes the check. *)
Lemma shape_valid_sections (c z : Section) (mid : list Section) :
  is_cover c = true ->
  is_closing z = true ->
  Forall (fun s => is_cover s = false /\ is_closing s = false) mid ->
  valid_sections (c :: (mid ++ [z])%list) = true.
Proof.
  intros Hc Hz Hmid.
  assert (Hzc : is_cover z = false).
  { unfold is_cover, is_closing in *. destruct (sectionType z); congruence. }
  assert (H1 : filter is_cover mid = []).
  { apply forall_filter_nil. eapply Forall_impl; [|exact Hmid]. now intros s [? ?]. }
  assert (H2 : filter is_closing mid = []).
  { apply forall_filter_nil. eapply Forall_impl; [|exact Hmid]. now intros s [? ?]. }
  unfold valid_sections, count. simpl filter.
  rewrite Hc, (cover_not_closing c Hc), !filter_app, H1, H2. simpl.
  rewrite Hz, Hzc. simpl.
  destruct (mid ++ [z])%list as [|x r] eqn:Hm.
  - destruct mid; discriminate Hm.
  - rewrite <- Hm, last_last, Hz. reflexivity.
Qed.

Lemma accepted_valid (r : BackendReply) (l : BrochureContent) :
  accepted r = Some l -> valid_sections l = true.
Proof.
  destruct r as [| |l']; simpl; try discriminate.
  destruct (valid_sections l') eqn:Hv; [|discriminate].
  intros H. injection H as <-. exact Hv.
Qed.

(** Whatever [enrich] returns has passed the check. *)
Lemma enrich_valid (cfg : Config) (w : World) (site : SiteContent)
    (name : string) (bc : BrochureContent) :
  enrich cfg w site name = inr bc -> valid_sections bc = true.
Proof.
  unfold enrich.
  destruct (request w (backendAttempts cfg) 0 _) as [[r1 next]|]; [|discriminate].
  destruct (accepted r1) as [l1|] eqn:H1.
  - intros H. injection H as <-. eapply accepted_valid; eauto.
  - destruct (request w (backendAttempts cfg) next _) as [[r2 next']|]; [|discriminate].
    destruct (accepted r2) as [l2|] eqn:H2; [|discriminate].
    intros H. injection H as <-. eapply accepted_valid; eauto.
Qed.

(** C5: the content returned by NarrativeEnricher starts with the only
    cover section and ends with the only callToAction or contact section;
    the sections in between are of the other three types.  This holds for
    every backend, also one that first answers out of order. *)
Theorem enrich_cover_first_closing_last (cfg : Config) (w : World)
    (site : SiteContent) (name : string) (bc : BrochureContent) :
  enrich cfg w site name = inr bc ->
  exists c mid z,
    bc = c :: (mid ++ [z])%list /\
    sectionType c = Cover /\
    (sectionType z = CallToAction \/ sectionType z = Contact) /\
    Forall (fun s => sectionType s = About \/ sectionType s = Offerings \/
                     sectionType s = ValueProposition) mid.
Proof.
  intros H. apply enrich_valid in H. apply valid_sections_shape in H.
  destruct H as (c & mid & z & Hl & Hc & Hz & Hmid).
  exists c, mid, z. repeat split.
  - exact Hl.
  - unfold is_cover in Hc. destruct (sectionType c); congruence.
  - unfold is_closing in Hz. destruct (sectionType z); auto; discriminate.
  - rewrite Forall_forall in *. intros s Hs.
    destruct (Hmid s Hs). now apply middle_type.
Qed.

Lemma enrich_cover_first_closing_last_witness :
  exists c mid z,
    Sample.good_copy = c :: (mid ++ [z])%list /\
    sectionType c = Cover /\
    (sectionType z = CallToAction \/ sectionType z = Contact) /\
    Forall (fun s => sectionType s = About \/ sectionType s = Offerings \/
                     sectionType s = ValueProposition) mid.
Proof.
  apply (enrich_cover_first_closing_last Sample.config Sample.world_retry
           {| rootUrl := Sample.site ""; pages := [] |} "Acme").
  reflexivity.
Defined.

End EnricherFacts.

Module FetcherFacts.
Import Pipeline.
Local Open Scope nat_scope.

Section WithWorld.
Context (hz : Heuristics) (w : World).











End WithWorld.




End FetcherFacts.

Module ExtractorFacts.
Import Pipeline.
Local Open Scope nat_scope.

Section WithConfig.
Context (hz : Heuristics) (cfg : Config).

Lemma in_insert_page (p q : PageContent) (ps : list PageContent) :
  In q (insert_page p ps) <-> q = p \/ In q ps.
Proof.
  induction ps as [|x r IH]; simpl.
  - intuition congruence.
  - destruct (rank (category p) <=? rank (category x)); simpl.
    + intuition congruence.
    + rewrite IH. intuition congruence.
Qed.

Lemma in_sort_pages (q : PageContent) (ps : list PageContent) :
  In q (sort_pages ps) <-> In q ps.
Proof.
  induction ps as [|x r IH]; simpl; [tauto|].
  rewrite in_insert_page, IH. intuition congruence.
Qed.

(** With nothing seen yet, the first block met is kept. *)
Lemma dedup_pages_keeps_some (ps : list PageContent) :
  existsb has_blocks ps = true ->
  existsb has_blocks (dedup_pages hz [] ps) = true.
Proof.
  induction ps as [|p r IH]; simpl; [discriminate|].
  unfold has_blocks at 1. destruct (textBlocks p) as [|b bs].
  - simpl. exact IH.
  - intros _. simpl.
    destruct (dedup_blocks hz [normalizeSpace hz b] bs) as [kept seen'].
    reflexivity.
Qed.

Lemma blocks_of_qualifying (h : Html) :
  existsb (qualifying cfg) (nodes h) = true -> blocks_of cfg h <> [].
Proof.
  unfold blocks_of. induction (nodes h) as [|n r IH]; simpl; [discriminate|].
  destruct (qualifying cfg n); simpl; [discriminate | exact IH].
Qed.

(** One fetched page with one qualifying block is enough for
    extraction to succeed. *)
Lemma extract_succeeds (root : Url) (raw : list (Url * Html)) :
  (exists p, In p raw /\ existsb (qualifying cfg) (nodes (snd p)) = true) ->
  exists site, extract hz cfg root raw = inr site.
Proof.
  intros (p & Hin & Hq). unfold extract.
  rewrite dedup_pages_keeps_some; [eauto|].
  apply existsb_exists. exists (page_of hz cfg root p). split.
  - apply in_sort_pages. now apply in_map.
  - unfold has_blocks. simpl.
    pose proof (blocks_of_qualifying (snd p) Hq).
    destruct (blocks_of cfg (snd p)); congruence.
Qed.

End WithConfig.

End ExtractorFacts.

Module AssemblerFacts.
Import Pipeline.
Local Open Scope nat_scope.

Section WithConfig.
Context (hz : Heuristics) (cfg : Config).

Lemma paginate_length (t : SectionType) (bs current : list string) (used : nat) :
  1 <= List.length (paginate hz cfg t current used bs).
Proof.
  revert current used.
  induction bs as [|b r IH]; intros current used; simpl; [lia|].
  destruct current; [apply IH|].
  destruct (_ <=? _); [apply IH | simpl; lia].
Qed.

(** Pagination keeps every block, in order. *)
Lemma paginate_keeps_content (t : SectionType) (bs current : list string)
    (used : nat) :
  concat (paginate hz cfg t current used bs) = (current ++ bs)%list.
Proof.
  revert current used.
  induction bs as [|b r IH]; intros current used; simpl.
  - now rewrite app_nil_r.
  - destruct current as [|c cs]; [now rewrite IH|].
    destruct (_ <=? _).
    + rewrite IH, <- app_assoc. reflexivity.
    + simpl. now rewrite IH.
Qed.

Lemma layout_length (l : list Section) (position : nat) :
  List.length l <= List.length (layout hz cfg position l).
Proof.
  revert position. induction l as [|s r IH]; intros position; simpl; [lia|].
  rewrite length_app. unfold section_pages. rewrite length_map.
  pose proof (paginate_length (template_for position (sectionType s))
                (blocks_in s) [] 0).
  specialize (IH (S position)). lia.
Qed.

End WithConfig.

End AssemblerFacts.

Module JobFacts.
Import Pipeline.
Local Open Scope nat_scope.

Section WithWorld.
Context (hz : Heuristics) (cfg : Config) (w : World).

Lemma settle_advances {A} (j : GenerationJob) (st : Stage) (a : A)
    (next : A -> JobState) :
  clock j + duration w st - startedAt j <= jobBudget cfg ->
  settle cfg w j st (inr a) next
  = {| companyName := companyName j; companyUrl := companyUrl j;
       state := next a; startedAt := startedAt j;
       clock := clock j + duration w st;
       completedAt := match next a with
                      | Completed _ => Some (clock j + duration w st)
                      | _ => None
                      end;
       failureReason := None |}.
Proof.
  intros H. unfold settle.
  destruct (Nat.ltb_spec (jobBudget cfg) (clock j + duration w st - startedAt j));
    [lia | reflexivity].
Qed.

Lemma steps_S (k : nat) (j : GenerationJob) :
  steps hz cfg w (S k) j = steps hz cfg w k (step hz cfg w j).
Proof. reflexivity. Qed.

Lemma step_created (j : GenerationJob) :
  state j = Created ->
  step hz cfg w j
  = {| companyName := companyName j; companyUrl := companyUrl j;
       state := Fetching; startedAt := startedAt j; clock := clock j;
       completedAt := None; failureReason := None |}.
Proof.
  intros H. unfold step. now rewrite H.
Qed.

Lemma step_fetching (j : GenerationJob) (raw : list (Url * Html)) :
  state j = Fetching ->
  fetch hz w (companyUrl j) (maxPages cfg) = inr raw ->
  clock j + duration w StFetch - startedAt j <= jobBudget cfg ->
  step hz cfg w j
  = {| companyName := companyName j; companyUrl := companyUrl j;
       state := Extracting raw; startedAt := startedAt j;
       clock := clock j + duration w StFetch;
       completedAt := None; failureReason := None |}.
Proof.
  intros H Hr Ht. unfold step. rewrite H, Hr. now apply settle_advances.
Qed.

Lemma step_extracting (j : GenerationJob) (raw : list (Url * Html))
    (site : SiteContent) :
  state j = Extracting raw ->
  extract hz cfg (companyUrl j) raw = inr site ->
  clock j + duration w StExtract - startedAt j <= jobBudget cfg ->
  step hz cfg w j
  = {| companyName := companyName j; companyUrl := companyUrl j;
       state := Enriching site; startedAt := startedAt j;
       clock := clock j + duration w StExtract;
       completedAt := None; failureReason := None |}.
Proof.
  intros H Hr Ht. unfold step. rewrite H, Hr. now apply settle_advances.
Qed.

Lemma step_enriching (j : GenerationJob) (site : SiteContent)
    (bc : BrochureContent) :
  state j = Enriching site ->
  enrich cfg w site (companyName j) = inr bc ->
  clock j + duration w StEnrich - startedAt j <= jobBudget cfg ->
  step hz cfg w j
  = {| companyName := companyName j; companyUrl := companyUrl j;
       state := Assembling bc; startedAt := startedAt j;
       clock := clock j + duration w StEnrich;
       completedAt := None; failureReason := None |}.
Proof.
  intros H Hr Ht. unfold step. rewrite H, Hr. now apply settle_advances.
Qed.

Lemma step_assembling (j : GenerationJob) (bc : BrochureContent) :
  state j = Assembling bc ->
  forallb (renderable hz) bc = true ->
  clock j + duration w StAssemble - startedAt j <= jobBudget cfg ->
  step hz cfg w j
  = {| companyName := companyName j; companyUrl := companyUrl j;
       state := Completed
                  {| stream := layout hz cfg 0 bc;
                     pageCount := List.length (layout hz cfg 0 bc);
                     generatedAt := clock j + duration w StAssemble;
                     docCompanyName := companyName j |};
       startedAt := startedAt j;
       clock := clock j + duration w StAssemble;
       completedAt := Some (clock j + duration w StAssemble);
       failureReason := None |}.
Proof.
  intros H Hr Ht. unfold step, assemble. rewrite H, Hr.
  now apply settle_advances.
Qed.

End WithWorld.

(** C1, as the model has it: when the root page answers, a fetched page
    holds a qualifying text block, NarrativeEnricher returns content, every
    section can be rendered and the four stages fit the job budget, the job
    ends in Completed with a document of at least one page. *)
Theorem generate_completes (hz : Heuristics) (cfg : Config) (w : World)
    (name : string) (u : Url) (now : nat) (raw : list (Url * Html))
    (bc : BrochureContent) :
  fetch hz w u (maxPages cfg) = inr raw ->
  (exists p, In p raw /\ existsb (qualifying cfg) (nodes (snd p)) = true) ->
  (forall site, extract hz cfg u raw = inr site ->
                enrich cfg w site name = inr bc) ->
  forallb (renderable hz) bc = true ->
  duration w StFetch + duration w StExtract + duration w StEnrich
    + duration w StAssemble <= jobBudget cfg ->
  exists doc,
    state (generate hz cfg w name u now) = Completed doc /\
    1 <= pageCount doc /\
    pageCount doc = List.length (stream doc) /\
    docCompanyName doc = name /\
    failureReason (generate hz cfg w name u now) = None.
Proof.
  intros Hfetch Hq Henrich Hrender Htime.
  destruct (ExtractorFacts.extract_succeeds hz cfg u raw Hq) as [site Hsite].
  pose proof (Henrich site Hsite) as Hbc.
  unfold generate.
  rewrite steps_S, (step_created hz cfg w (new_job name u now) eq_refl).
  cbn [new_job companyName companyUrl startedAt clock].
  rewrite steps_S.
  erewrite step_fetching; [| reflexivity | exact Hfetch | cbn; lia].
  cbn [companyName companyUrl startedAt clock].
  rewrite steps_S.
  erewrite step_extracting; [| reflexivity | exact Hsite | cbn; lia].
  cbn [companyName companyUrl startedAt clock].
  rewrite steps_S.
  erewrite step_enriching; [| reflexivity | exact Hbc | cbn; lia].
  cbn [companyName companyUrl startedAt clock].
  rewrite steps_S.
  erewrite step_assembling; [| reflexivity | exact Hrender | cbn; lia].
  cbn [steps].
  cbn [state failureReason companyName]. eexists. split; [reflexivity|].
  cbn [pageCount stream docCompanyName].
  split; [| split; [reflexivity | split; reflexivity]].
  apply EnricherFacts.enrich_valid in Hbc.
  pose proof (AssemblerFacts.layout_length hz cfg bc 0) as Hlen.
  destruct bc as [|s r]; [discriminate Hbc|].
  change (List.length (s :: r)) with (S (List.length r)) in Hlen. lia.
Qed.

Lemma generate_completes_witness :
  exists doc,
    state (generate Sample.heuristics Sample.config Sample.world_ok
             "Acme" (Sample.site "") 0) = Completed doc /\
    1 <= pageCount doc /\
    pageCount doc = List.length (stream doc) /\
    docCompanyName doc = "Acme" /\
    failureReason (generate Sample.heuristics Sample.config Sample.world_ok
                     "Acme" (Sample.site "") 0) = None.
Proof.
  apply (generate_completes Sample.heuristics Sample.config Sample.world_ok
           "Acme" (Sample.site "") 0
           ((Sample.site "", Sample.root_page)
            :: fetch_pages Sample.world_ok
                 (selected Sample.heuristics (Sample.site "") Sample.root_page 5))
           Sample.good_copy).
  - reflexivity.
  - exists (Sample.site "", Sample.root_page). split; [now left | reflexivity].
  - intros site _. reflexivity.
  - reflexivity.
  - simpl. lia.
Defined.

(** C1 as stated fails: the root page answers and holds qualifying text,
    but the backend cannot be reached and the job ends in
    Failed(EnrichmentUnavailable), with no document.  On the same site a
    backend that answers too late ends the job in Failed(Timeout), and a
    section the renderer cannot draw ends it in Failed(RenderFailure). *)
Lemma backend_outage_fails_job :
  web Sample.world_outage (Sample.site "") = Fetched Sample.root_page /\
  existsb (qualifying Sample.config) (nodes Sample.root_page) = true /\
  state (generate Sample.heuristics Sample.config Sample.world_outage
           "Acme" (Sample.site "") 0) = Failed EnrichmentUnavailable /\
  (forall doc,
      state (generate Sample.heuristics Sample.config Sample.world_outage
               "Acme" (Sample.site "") 0) <> Completed doc) /\
  state (generate Sample.heuristics Sample.config Sample.world_slow
           "Acme" (Sample.site "") 0) = Failed Timeout /\
  state (generate Sample.heuristics_strict Sample.config Sample.world_blank_heading
           "Acme" (Sample.site "") 0) = Failed RenderFailure.
Proof.
  assert (H : state (generate Sample.heuristics Sample.config Sample.world_outage
                       "Acme" (Sample.site "") 0) = Failed EnrichmentUnavailable)
    by (vm_compute; reflexivity).
  repeat split; try reflexivity; try exact H.
  intros doc Hdoc. rewrite H in Hdoc. discriminate Hdoc.
Qed.

End JobFacts.

(** * Further properties of the submit handler of App *)

Module SubmitFacts.
Import Browser Observe Fixtures AppAsync.

Ltac unfold_run :=
  cbv [App.handleSubmit in_parts start after_fetch after_blob fail_with on_error
       settled failure_cause first_fault download_steps
       bind ret throw try_catch_finally
       emit update platform setLoading setSuccess setCompanyName setCompanyUrl
       preventDefault fetch response_blob createObjectURL createElement
       setTimeout snd fst].

Ltac all_runs := unfold_run; repeat (cbn; AppFacts.split_world); cbn.

Ltac new_events := eexists; split; [rewrite <- ?app_assoc; reflexivity|]; cbn.

(** X1: a run of [handleSubmit] leaves both form fields, [mounted] and the
    pending timers as they were, however the request settles and whatever
    throws. *)
Theorem submit_keeps_fields (cn cu : string) (w : World) (s : Store) :
  companyName (react (snd (App.handleSubmit cn cu w s))) = companyName (react s) /\
  companyUrl (react (snd (App.handleSubmit cn cu w s))) = companyUrl (react s) /\
  mounted (react (snd (App.handleSubmit cn cu w s))) = mounted (react s) /\
  timers (snd (App.handleSubmit cn cu w s)) = timers s.
Proof.
  unfold_run. generalize (App.generate_request cn cu). intros r.
  repeat (cbn; AppFacts.split_world); cbn; repeat split; reflexivity.
Qed.

(** X2: a run ends with [success] true exactly when nothing failed: the
    request was answered with an ok response, its blob could be read, and
    none of the download steps threw. *)
Theorem success_iff_nothing_failed (cn cu : string) (w : World) (s : Store) :
  success (react (snd (App.handleSubmit cn cu w s))) = true
  <-> failure_cause w cn cu = None.
Proof.
  unfold_run. generalize (App.generate_request cn cu). intros r.
  repeat (cbn; AppFacts.split_world); cbn; split; intros H;
    try reflexivity; try discriminate H.
Qed.

(** X3: [console.error] is called with the error that ended the [try]
    block, once, and not at all when nothing failed; no alert is shown on
    success, and the failure alert is shown once on failure (when
    [console.error] returns). *)
Theorem failure_is_logged_and_reported (cn cu : string) (w : World) (s : Store) :
  exists evs,
    trace (snd (App.handleSubmit cn cu w s)) = (trace s ++ evs)%list /\
    console_errors evs = match failure_cause w cn cu with
                         | Some e => [e]
                         | None => []
                         end /\
    alerts evs = match failure_cause w cn cu, fault w StConsoleError with
                 | Some _, None => [failure_alert]
                 | _, _ => []
                 end.
Proof.
  unfold_run. generalize (App.generate_request cn cu). intros r.
  repeat (cbn; AppFacts.split_world); cbn; new_events; split; reflexivity.
Qed.

(** X4: the handler swallows every error of its [try] block: its promise
    is rejected only with what [console.error] or [alert] throw inside the
    [catch] block. *)
Theorem only_catch_block_errors_escape (cn cu : string) (w : World) (s : Store) :
  fst (App.handleSubmit cn cu w s)
  = match failure_cause w cn cu with
    | None => Normal tt
    | Some _ =>
        match fault w StConsoleError, fault w StAlert with
        | Some e, _ => Throw e
        | None, Some e => Throw e
        | None, None => Normal tt
        end
    end.
Proof.
  unfold_run. generalize (App.generate_request cn cu). intros r.
  repeat (cbn; AppFacts.split_world); cbn; reflexivity.
Qed.

(** X5: when the backend answers ok, the blob is read and no download step
    throws, the run makes exactly these calls in this order: the request,
    the object URL, the anchor created, appended, clicked and removed, the
    URL revoked; it ends normally with [success] true and [loading] false. *)
Theorem happy_path_effects (cn cu : string) (w : World) (s : Store)
    (resp : Response) (b : Blob) :
  fetch_settles w (App.generate_request cn cu) = inr resp ->
  ok resp = true ->
  blob resp = inr b ->
  first_fault w download_steps = None ->
  App.handleSubmit cn cu w s
  = (Normal tt,
     {| react := {| companyName := companyName (react s);
                    companyUrl := companyUrl (react s);
                    loading := false; success := true;
                    mounted := mounted (react s) |};
        trace := (trace s ++
                  [EvPreventDefault;
                   EvFetch (App.generate_request cn cu);
                   EvCreateObjectURL b;
                   EvCreateElement "a";
                   EvAppendChild {| href := object_url w b;
                                    download := cn ++ "_brochure.pdf" |};
                   EvClick {| href := object_url w b;
                              download := cn ++ "_brochure.pdf" |};
                   EvRemove {| href := object_url w b;
                               download := cn ++ "_brochure.pdf" |};
                   EvRevokeObjectURL (object_url w b)])%list;
        timers := timers s |}).
Proof.
  intros Hf Hok Hb Hsteps. unfold_run. cbn. rewrite Hf. cbn. rewrite Hok. cbn.
  rewrite Hb. cbn. revert Hsteps. unfold_run.
  repeat (cbn; AppFacts.split_world); cbn; intros Hsteps; try discriminate Hsteps.
  rewrite <- !app_assoc. reflexivity.
Qed.

Lemma happy_path_effects_witness :
  App.handleSubmit "Acme" "https://acme.test" happy_world fresh_store
  = (Normal tt,
     {| react := {| companyName := companyName (react fresh_store);
                    companyUrl := companyUrl (react fresh_store);
                    loading := false; success := true;
                    mounted := mounted (react fresh_store) |};
        trace := (trace fresh_store ++
                  [EvPreventDefault;
                   EvFetch (App.generate_request "Acme" "https://acme.test");
                   EvCreateObjectURL [37; 80; 68; 70];
                   EvCreateElement "a";
                   EvAppendChild {| href := object_url happy_world [37; 80; 68; 70];
                                    download := "Acme" ++ "_brochure.pdf" |};
                   EvClick {| href := object_url happy_world [37; 80; 68; 70];
                              download := "Acme" ++ "_brochure.pdf" |};
                   EvRemove {| href := object_url happy_world [37; 80; 68; 70];
                               download := "Acme" ++ "_brochure.pdf" |};
                   EvRevokeObjectURL (object_url happy_world [37; 80; 68; 70])])%list;
        timers := timers fresh_store |}).
Proof.
  apply (happy_path_effects "Acme" "https://acme.test" happy_world fresh_store
           {| ok := true; blob := inr [37; 80; 68; 70] |} [37; 80; 68; 70]);
    reflexivity.
Defined.

(** X6: the clean-up is not in the [finally] block: when the object URL
    was made and creating, appending, clicking or removing the anchor then
    throws, [revokeObjectURL] is never called. *)
Theorem object_url_leaks_on_failure (cn cu : string) (w : World) (s : Store)
    (resp : Response) (b : Blob) (e : Exn) :
  fetch_settles w (App.generate_request cn cu) = inr resp ->
  ok resp = true ->
  blob resp = inr b ->
  fault w StCreateObjectURL = None ->
  first_fault w [StCreateElement; StAppendChild; StClick; StRemove] = Some e ->
  exists evs,
    trace (snd (App.handleSubmit cn cu w s)) = (trace s ++ evs)%list /\
    object_urls evs = [b] /\
    revoked evs = [] /\
    console_errors evs = [e] /\
    success (react (snd (App.handleSubmit cn cu w s))) = false.
Proof.
  intros Hf Hok Hb Hurl Hsteps. unfold_run. cbn. rewrite Hf. cbn. rewrite Hok. cbn.
  rewrite Hb. cbn. rewrite Hurl. cbn. revert Hsteps. unfold_run.
  repeat (cbn; AppFacts.split_world); cbn; intros Hsteps;
    try discriminate Hsteps; injection Hsteps as <-;
    new_events; repeat split; reflexivity.
Qed.

Lemma object_url_leaks_on_failure_witness :
  exists evs,
    trace (snd (App.handleSubmit "Acme" "https://acme.test"
                  Session.click_fails_world fresh_store))
      = (trace fresh_store ++ evs)%list /\
    object_urls evs = [[37; 80; 68; 70]] /\
    revoked evs = [] /\
    console_errors evs = [Foreign "InvalidStateError"] /\
    success (react (snd (App.handleSubmit "Acme" "https://acme.test"
                          Session.click_fails_world fresh_store))) = false.
Proof.
  apply (object_url_leaks_on_failure "Acme" "https://acme.test"
           Session.click_fails_world fresh_store
           {| ok := true; blob := inr [37; 80; 68; 70] |} [37; 80; 68; 70]
           (Foreign "InvalidStateError"));
    reflexivity.
Defined.

(** X7: [handleSubmit] is the sequence of its three parts, cut at the two
    [await]s: the part that sends the request, the part run when the
    response arrives, the part run when the blob arrives. *)
Theorem handleSubmit_in_parts (cn cu : string) (w : World) (s : Store) :
  App.handleSubmit cn cu w s = in_parts cn cu w s.
Proof.
  unfold_run. generalize (App.generate_request cn cu). intros r.
  repeat (cbn; AppFacts.split_world); cbn; reflexivity.
Qed.

(** X19: the request body determines what was entered: two submissions
    with the same body had the same company name and the same URL, whatever
    characters they hold. *)
Theorem request_body_is_unambiguous (cn cu cn' cu' : string) :
  req_body (App.generate_request cn cu) = req_body (App.generate_request cn' cu') ->
  cn = cn' /\ cu = cu'.
Proof.
  unfold App.generate_request. cbn [req_body]. intros H.
  apply (f_equal JSONRead.read_object) in H.
  rewrite !JSONFacts.read_stringify in H.
  injection H as -> ->. split; reflexivity.
Qed.

Lemma request_body_is_unambiguous_witness :
  "Acme" = "Acme" /\ "https://acme.test" = "https://acme.test".
Proof.
  apply (request_body_is_unambiguous "Acme" "https://acme.test"
           "Acme" "https://acme.test").
  reflexivity.
Defined.

End SubmitFacts.

(** * Properties of the rendered pages *)

Module ViewFacts.
Import Browser React Views.

Lemma app_interactions (st : AppState) :
  interactions (App st)
  = ClickDocument scrollToForm ::
    if success st then [Click AppView.onCreateAnother]
    else if loading st then []
    else [Submit (App.handleSubmit (companyName st) (companyUrl st));
          Type_ setCompanyName; Type_ setCompanyUrl].
Proof.
  destruct st as [cn cu l s m]. destruct l, s, m; reflexivity.
Qed.

Lemma standalone_interactions (st : AppState) :
  interactions (Standalone.BrochAI st)
  = ClickDocument scrollToForm ::
    if success st then [Click BrochAI.onCreateAnother]
    else if loading st then []
    else [Submit BrochAI.handleSubmit; Type_ setCompanyName; Type_ setCompanyUrl].
Proof.
  destruct st as [cn cu l s m]. destruct l, s, m; reflexivity.
Qed.

(** X8: the page built from the components (App with HeroSection,
    DescriptionSection, StatsStrip, FormSection, Footer and FloatingOrb) has,
    in every state, the same host output as the standalone BrochAI component,
    but for the submit handler of the form. *)
Theorem app_renders_as_standalone (st : AppState) :
  host (with_submit BrochAI.handleSubmit (App st)) = host (Standalone.BrochAI st).
Proof.
  destruct st as [cn cu l s m]. destruct l, s, m; reflexivity.
Qed.

(** X9: what FormSection lets the user do, for any props: on success only
    "Create Another"; while loading nothing; otherwise submitting the form
    and typing in the two fields.  On the pages of App and of the standalone
    component the button of the hero section is offered besides, and the
    submit handler of App is the one closed over the fields' current
    content. *)
Theorem form_offers (companyName companyUrl : string)
    (setCompanyName setCompanyUrl : string -> M unit) (loading success : bool)
    (setSuccess : bool -> M unit) (handleSubmit : M unit) :
  interactions (FormSection companyName setCompanyName companyUrl setCompanyUrl
                  loading success setSuccess handleSubmit)
  = (if success
     then [Click (FormSection.onCreateAnother setSuccess setCompanyName setCompanyUrl)]
     else if loading then []
     else [Submit handleSubmit; Type_ setCompanyName; Type_ setCompanyUrl]) /\
  (forall st,
      interactions (App st)
      = ClickDocument scrollToForm ::
        if Browser.success st then [Click AppView.onCreateAnother]
        else if Browser.loading st then []
        else [Submit (App.handleSubmit (Browser.companyName st) (Browser.companyUrl st));
              Type_ Browser.setCompanyName; Type_ Browser.setCompanyUrl]) /\
  (forall st,
      interactions (Standalone.BrochAI st)
      = ClickDocument scrollToForm ::
        if Browser.success st then [Click BrochAI.onCreateAnother]
        else if Browser.loading st then []
        else [Submit BrochAI.handleSubmit;
              Type_ Browser.setCompanyName; Type_ Browser.setCompanyUrl]).
Proof.
  split; [|split].
  - destruct success, loading; reflexivity.
  - apply app_interactions.
  - apply standalone_interactions.
Qed.

(** X10: the fields are controlled: while the form is shown, the input
    with id companyName displays the [companyName] cell and its [onChange],
    applied to what was typed, makes the next render display exactly that;
    the other cells, the effects and the timers are untouched.  Likewise for
    companyUrl. *)
Theorem typing_is_displayed (st : AppState) (w : World) (s : Store) (v : string) :
  success st = false ->
  react s = st ->
  exists ps_name h_name ps_url h_url,
    getElementById "companyName" (App st) = Some ("input", ps_name) /\
    string_prop "value" ps_name = Some (companyName st) /\
    prop "onChange" ps_name = Some (PChange h_name) /\
    getElementById "companyUrl" (App st) = Some ("input", ps_url) /\
    string_prop "value" ps_url = Some (companyUrl st) /\
    prop "onChange" ps_url = Some (PChange h_url) /\
    (exists ps, getElementById "companyName" (App (react (snd (h_name v w s))))
                = Some ("input", ps) /\ string_prop "value" ps = Some v) /\
    (exists ps, getElementById "companyUrl" (App (react (snd (h_url v w s))))
                = Some ("input", ps) /\ string_prop "value" ps = Some v) /\
    snd (h_name v w s)
    = {| react := {| companyName := v; companyUrl := companyUrl st;
                     loading := loading st; success := false;
                     mounted := mounted st |};
         trace := trace s; timers := timers s |} /\
    snd (h_url v w s)
    = {| react := {| companyName := companyName st; companyUrl := v;
                     loading := loading st; success := false;
                     mounted := mounted st |};
         trace := trace s; timers := timers s |}.
Proof.
  intros Hs Hr. destruct s as [a tr tm]. cbn in Hr. subst a.
  destruct st as [cn cu l sc m]. cbn in Hs. subst sc.
  destruct l, m; do 4 eexists; cbn;
    repeat (split; [reflexivity|]);
    (split; [eexists; split; reflexivity|]);
    (split; [eexists; split; reflexivity|]);
    split; reflexivity.
Qed.

Lemma typing_is_displayed_witness :
  exists ps_name h_name ps_url h_url,
    getElementById "companyName" (App Views.initial) = Some ("input", ps_name) /\
    string_prop "value" ps_name = Some (companyName Views.initial) /\
    prop "onChange" ps_name = Some (PChange h_name) /\
    getElementById "companyUrl" (App Views.initial) = Some ("input", ps_url) /\
    string_prop "value" ps_url = Some (companyUrl Views.initial) /\
    prop "onChange" ps_url = Some (PChange h_url) /\
    (exists ps,
        getElementById "companyName"
          (App (react (snd (h_name "Acme" Fixtures.happy_world
                              {| react := Views.initial; trace := []; timers := [] |}))))
        = Some ("input", ps) /\ string_prop "value" ps = Some "Acme") /\
    (exists ps,
        getElementById "companyUrl"
          (App (react (snd (h_url "Acme" Fixtures.happy_world
                              {| react := Views.initial; trace := []; timers := [] |}))))
        = Some ("input", ps) /\ string_prop "value" ps = Some "Acme") /\
    snd (h_name "Acme" Fixtures.happy_world
           {| react := Views.initial; trace := []; timers := [] |})
    = {| react := {| companyName := "Acme"; companyUrl := companyUrl Views.initial;
                     loading := loading Views.initial; success := false;
                     mounted := mounted Views.initial |};
         trace := []; timers := [] |} /\
    snd (h_url "Acme" Fixtures.happy_world
           {| react := Views.initial; trace := []; timers := [] |})
    = {| react := {| companyName := companyName Views.initial; companyUrl := "Acme";
                     loading := loading Views.initial; success := false;
                     mounted := mounted Views.initial |};
         trace := []; timers := [] |}.
Proof.
  apply (typing_is_displayed Views.initial Fixtures.happy_world
           {| react := Views.initial; trace := []; timers := [] |} "Acme");
    reflexivity.
Defined.

(** X11: [scrollToForm] never throws on a rendered page: in every state
    the page of App and the standalone page hold a section with the id
    generator, so the handler scrolls to it, smoothly. *)
Theorem scrollToForm_finds_its_target (st : AppState) :
  scrollToForm (document_of (App st))
    = inr {| scroll_target := "generator"; behavior := "smooth" |} /\
  scrollToForm (document_of (Standalone.BrochAI st))
    = inr {| scroll_target := "generator"; behavior := "smooth" |} /\
  (exists ps, getElementById "generator" (App st) = Some ("section", ps)) /\
  (exists ps, getElementById "generator" (Standalone.BrochAI st) = Some ("section", ps)).
Proof.
  destruct st as [cn cu l s m].
  destruct l, s, m; repeat split; try reflexivity; eexists; reflexivity.
Qed.

Lemma app_ids (st : AppState) :
  ids (App st) = if success st then ["generator"]
                 else ["generator"; "companyName"; "companyUrl"].
Proof.
  destruct st as [cn cu l s m]. destruct l, s, m; reflexivity.
Qed.

Lemma app_labels_bound (st : AppState) :
  forallb (Session.label_bound (App st)) (nodes (App st)) = true.
Proof.
  destruct st as [cn cu l s m]. destruct l, s, m; vm_compute; reflexivity.
Qed.

(** X12: in every state the ids of the page of App are pairwise distinct,
    so [getElementById] is unambiguous, and every label names with [htmlFor]
    an input that is on the page. *)
Theorem page_ids_are_sound (st : AppState) :
  NoDup (ids (App st)) /\
  (forall tag ps, In (tag, ps) (nodes (App st)) -> tag = "label" ->
     exists id ps',
       string_prop "htmlFor" ps = Some id /\
       getElementById id (App st) = Some ("input", ps')).
Proof.
  split.
  - rewrite app_ids. destruct (success st);
      repeat constructor; cbn; intuition (try discriminate).
  - intros tag ps Hin Htag. subst tag.
    pose proof (app_labels_bound st) as Hall. rewrite forallb_forall in Hall.
    specialize (Hall _ Hin). unfold Session.label_bound, is_tag in Hall.
    cbn [fst snd] in Hall. rewrite String.eqb_refl in Hall.
    cbn [negb orb] in Hall.
    destruct (string_prop "htmlFor" ps) as [id|]; [|discriminate Hall].
    destruct (getElementById id (App st)) as [[t ps']|] eqn:Hfound;
      [|discriminate Hall].
    cbn [fst] in Hall. apply String.eqb_eq in Hall. subst t.
    exists id, ps'. split; [reflexivity | exact Hfound].
Qed.

(** X18: [mounted], set by the effect after the first render, only drives
    class names: without the [className] properties the page of App, and the
    standalone page, are the same tree whatever [mounted] is. *)
Theorem mounted_only_styles (cn cu : string) (l s m m' : bool) (w : World) :
  without_class (App {| companyName := cn; companyUrl := cu; loading := l;
                        success := s; mounted := m |})
  = without_class (App {| companyName := cn; companyUrl := cu; loading := l;
                          success := s; mounted := m' |}) /\
  without_class (Standalone.BrochAI
                   {| companyName := cn; companyUrl := cu; loading := l;
                      success := s; mounted := m |})
  = without_class (Standalone.BrochAI
                     {| companyName := cn; companyUrl := cu; loading := l;
                        success := s; mounted := m' |}) /\
  mounted (react (Session.mounted_store w)) = true.
Proof.
  destruct l, s, m, m'; repeat split; reflexivity.
Qed.

End ViewFacts.

(** * Properties of whole sessions *)

Module SessionFacts.
Import Browser React Observe Session.

Lemma downloads_app (l1 l2 : list Event) :
  downloads (l1 ++ l2) = (downloads l1 ++ downloads l2)%list.
Proof.
  induction l1 as [|e l1 IH]; [reflexivity|].
  destruct e; cbn; rewrite ?IH; reflexivity.
Qed.

Lemma requests_app (l1 l2 : list Event) :
  requests (l1 ++ l2) = (requests l1 ++ requests l2)%list.
Proof.
  induction l1 as [|e l1 IH]; [reflexivity|].
  destruct e; cbn; rewrite ?IH; reflexivity.
Qed.

Lemma last_download_app (l1 l2 : list Event) :
  last_download (l1 ++ l2)
  = match last_download l2 with
    | Some a => Some a
    | None => last_download l1
    end.
Proof.
  unfold last_download. rewrite downloads_app, map_app.
  induction (downloads l2) as [|a r IH] using rev_ind.
  - cbn. now rewrite app_nil_r.
  - rewrite map_app. cbn [map]. rewrite app_assoc, !last_last. reflexivity.
Qed.

Ltac unfold_page :=
  cbv [app_act standalone_act fire_nth fire remove_nth
       AppView.onCreateAnother FormSection.onCreateAnother
       BrochAI.onCreateAnother BrochAI.handleSubmit BrochAI.onTimeout
       AppAsync.start AppAsync.after_fetch AppAsync.after_blob
       AppAsync.fail_with AppAsync.on_error AppAsync.settled
       bind ret throw try_catch_finally
       emit update platform setLoading setSuccess setCompanyName setCompanyUrl
       set_loading set_success
       preventDefault fetch response_blob createObjectURL createElement
       setTimeout].

Lemma app_act_invariant (w : World) (p : Page) (a : Action) :
  app_invariant p -> app_invariant (app_act w p a).
Proof.
  destruct p as [[[cn cu l sc m] tr tm] infl].
  unfold app_invariant. cbn [store react timers trace inflight
                             companyName companyUrl loading success].
  intros (Htm & Hin & Hsucc). subst tm.
  destruct a as [n typed|n|n].
  - (* the user *)
    unfold app_act. cbn [store react inflight].
    rewrite ViewFacts.app_interactions. cbn [success loading companyName companyUrl].
    destruct infl as [|[cn' r|cn' resp] [|q infl']]; try contradiction.
    + subst l. destruct sc.
      * destruct n as [|[|[|n]]]; unfold_page; cbn;
          (split; [reflexivity|]); (split; [reflexivity|]);
          first [exact Hsucc | intros H; discriminate H].
      * destruct n as [|[|[|[|[|n]]]]]; unfold_page; cbn;
          (split; [reflexivity|]);
          (split; [repeat split; reflexivity|]);
          intros H; discriminate H.
    + destruct Hin as (-> & -> & -> & ->).
      destruct n as [|[|n]]; cbn;
        (split; [reflexivity|]);
        (split; [repeat split; reflexivity|]); exact Hsucc.
    + destruct Hin as (-> & -> & ->).
      destruct n as [|[|n]]; cbn;
        (split; [reflexivity|]);
        (split; [repeat split; reflexivity|]); exact Hsucc.
  - (* a promise settles *)
    destruct infl as [|[cn' r|cn' resp] [|q infl']]; try contradiction.
    + destruct n; cbn; auto.
    + destruct Hin as (-> & -> & -> & ->).
      destruct n as [|[|n]];
        [| cbn; (split; [reflexivity|]);
           (split; [repeat split; reflexivity|]); exact Hsucc ..].
      unfold_page. cbn.
      repeat (AppFacts.split_world; cbn);
        (split; [reflexivity|]);
        (split; [repeat split; reflexivity|]);
        intros H; discriminate H.
    + destruct Hin as (-> & -> & ->).
      destruct n as [|[|n]];
        [| cbn; (split; [reflexivity|]);
           (split; [repeat split; reflexivity|]); exact Hsucc ..].
      unfold_page. cbn -[last_download].
      repeat (AppFacts.split_world; cbn -[last_download]);
        (split; [reflexivity|]);
        (split; [reflexivity|]);
        intros H; try discriminate H.
      eexists. rewrite <- !app_assoc, last_download_app. cbn.
      split; reflexivity.
  - (* a timer *)
    unfold app_act, fire_nth. cbn.
    destruct n; cbn; auto.
Qed.

Lemma app_session_invariant (w : World) (acts : list Action) :
  app_invariant (app_session w acts).
Proof.
  unfold app_session.
  assert (H0 : app_invariant {| store := mounted_store w; inflight := [] |}).
  { unfold app_invariant. cbn. repeat split. intros H. discriminate H. }
  revert H0. generalize {| store := mounted_store w; inflight := [] |}.
  induction acts as [|a acts IH]; intros p Hp; cbn; [exact Hp|].
  apply IH. now apply app_act_invariant.
Qed.

(** X13: in every session on the page of App (any order of user actions
    and settling promises) at most one run of [handleSubmit] is in flight,
    [loading] is true exactly while one is, and no timer is ever pending. *)
Theorem one_submission_at_a_time (w : World) (acts : list Action) :
  List.length (inflight (app_session w acts)) <= 1 /\
  (loading (react (store (app_session w acts))) = true
   <-> inflight (app_session w acts) <> []) /\
  timers (store (app_session w acts)) = [].
Proof.
  destruct (app_session_invariant w acts) as (Htm & Hin & _).
  destruct (inflight (app_session w acts)) as [|[cn r|cn resp] [|q infl]];
    try contradiction; cbn.
  - split; [lia|]. split; [|assumption]. rewrite Hin.
    split; intros H; [discriminate H | exfalso; now apply H].
  - destruct Hin as (-> & _). split; [lia|]. split; [|assumption].
    split; intros H; [discriminate | reflexivity].
  - destruct Hin as (-> & _). split; [lia|]. split; [|assumption].
    split; intros H; [discriminate | reflexivity].
Qed.

(** X14: while a run of [handleSubmit] is in flight the page of App offers
    nothing but the scroll button of the hero section: no field can be
    changed and no second submission started. *)
Theorem waiting_page_is_locked (w : World) (acts : list Action) :
  inflight (app_session w acts) <> [] ->
  interactions (Views.App (react (store (app_session w acts))))
  = [ClickDocument Views.scrollToForm].
Proof.
  intros Hbusy. rewrite ViewFacts.app_interactions.
  destruct (app_session_invariant w acts) as (_ & Hin & _).
  destruct (inflight (app_session w acts)) as [|[cn r|cn resp] [|q infl]];
    try contradiction; try congruence.
  - destruct Hin as (-> & -> & _). reflexivity.
  - destruct Hin as (-> & -> & _). reflexivity.
Qed.

Lemma waiting_page_is_locked_witness :
  interactions (Views.App (react (store (app_session Fixtures.happy_world
                                            [User 2 "Acme"; User 1 ""]))))
  = [ClickDocument Views.scrollToForm].
Proof.
  apply (waiting_page_is_locked Fixtures.happy_world [User 2 "Acme"; User 1 ""]).
  vm_compute. discriminate.
Defined.

(** X15: whenever the page of App shows the success panel, in any
    session, the file handed over last is named after the company the panel
    names, nothing is in flight and [loading] is false. *)
Theorem success_panel_is_truthful (w : World) (acts : list Action) :
  success (react (store (app_session w acts))) = true ->
  (exists a,
      last_download (trace (store (app_session w acts))) = Some a /\
      download a
      = companyName (react (store (app_session w acts))) ++ "_brochure.pdf") /\
  inflight (app_session w acts) = [] /\
  loading (react (store (app_session w acts))) = false.
Proof.
  intros Hs. destruct (app_session_invariant w acts) as (_ & Hin & Hsucc).
  split; [auto|].
  destruct (inflight (app_session w acts)) as [|[cn r|cn resp] [|q infl]];
    try contradiction.
  - auto.
  - destruct Hin as (_ & Hf & _). congruence.
  - destruct Hin as (_ & Hf & _). congruence.
Qed.

Lemma success_panel_is_truthful_witness :
  (exists a,
      last_download (trace (store (app_session Fixtures.happy_world
                                     [User 2 "Acme"; User 1 ""; Settle 0; Settle 0])))
      = Some a /\
      download a
      = companyName (react (store (app_session Fixtures.happy_world
                                     [User 2 "Acme"; User 1 ""; Settle 0; Settle 0])))
        ++ "_brochure.pdf") /\
  inflight (app_session Fixtures.happy_world
              [User 2 "Acme"; User 1 ""; Settle 0; Settle 0]) = [] /\
  loading (react (store (app_session Fixtures.happy_world
                           [User 2 "Acme"; User 1 ""; Settle 0; Settle 0]))) = false.
Proof.
  apply (success_panel_is_truthful Fixtures.happy_world
           [User 2 "Acme"; User 1 ""; Settle 0; Settle 0]).
  reflexivity.
Defined.

Lemma standalone_act_invariant (w : World) (s : Store) (a : Action) :
  standalone_invariant s -> standalone_invariant (standalone_act w s a).
Proof.
  destruct s as [[cn cu l sc m] tr tm].
  unfold standalone_invariant.
  cbn [react trace timers loading success].
  intros (Hreq & Hdl & Htm).
  destruct a as [n typed|n|n].
  - unfold standalone_act. cbn [react].
    rewrite ViewFacts.standalone_interactions. cbn [success loading].
    destruct tm as [|t [|t' tm']]; try contradiction.
    + subst l. destruct sc.
      * destruct n as [|[|[|n]]]; unfold_page; cbn; auto.
      * destruct n as [|[|[|[|[|n]]]]]; unfold_page; cbn;
          rewrite ?requests_app, ?downloads_app, ?Hreq, ?Hdl; cbn; auto.
    + destruct Htm as (-> & -> & ->).
      destruct n as [|[|n]]; cbn; auto.
  - cbn. auto.
  - unfold standalone_act.
    destruct tm as [|t [|t' tm']]; try contradiction.
    + destruct n; cbn; auto.
    + destruct Htm as (-> & -> & ->).
      destruct n as [|[|n]]; unfold_page; cbn; auto.
Qed.

Lemma standalone_session_invariant (w : World) (acts : list Action) :
  standalone_invariant (standalone_session w acts).
Proof.
  unfold standalone_session.
  assert (H0 : standalone_invariant (mounted_store w)).
  { unfold standalone_invariant. cbn. auto. }
  revert H0. generalize (mounted_store w).
  induction acts as [|a acts IH]; intros s Hs; cbn; [exact Hs|].
  apply IH. now apply standalone_act_invariant.
Qed.

(** X16: in every session on the standalone page no request is sent and
    no file is handed over; at most one timer is pending and [loading] is
    true exactly while one is. *)
Theorem standalone_never_requests (w : World) (acts : list Action) :
  requests (trace (standalone_session w acts)) = [] /\
  downloads (trace (standalone_session w acts)) = [] /\
  List.length (timers (standalone_session w acts)) <= 1 /\
  (loading (react (standalone_session w acts)) = true
   <-> timers (standalone_session w acts) <> []).
Proof.
  destruct (standalone_session_invariant w acts) as (Hreq & Hdl & Htm).
  split; [exact Hreq|]. split; [exact Hdl|].
  destruct (timers (standalone_session w acts)) as [|t [|t' tm]];
    try contradiction; cbn.
  - split; [lia|]. rewrite Htm.
    split; intros H; [discriminate H | exfalso; now apply H].
  - destruct Htm as (_ & -> & _). split; [lia|].
    split; intros H; [discriminate | reflexivity].
Qed.

(** X17: on the standalone page a pending timer always ends the wait with
    the success panel: when it fires, [success] is true, [loading] false,
    no timer is left, the fields keep their content and the page offers
    "Create Another" besides the scroll button. *)
Theorem standalone_timer_shows_success (w : World) (acts : list Action) :
  timers (standalone_session w acts) <> [] ->
  let s := standalone_session w acts in
  let s' := standalone_act w s (TimerFires 0) in
  success (react s') = true /\
  loading (react s') = false /\
  timers s' = [] /\
  companyName (react s') = companyName (react s) /\
  companyUrl (react s') = companyUrl (react s) /\
  interactions (Views.Standalone.BrochAI (react s'))
  = [ClickDocument Views.scrollToForm; Click BrochAI.onCreateAnother].
Proof.
  intros Hbusy s s'. subst s'.
  rewrite ViewFacts.standalone_interactions.
  destruct (standalone_session_invariant w acts) as (_ & _ & Htm).
  fold s in Htm, Hbusy. clearbody s.
  destruct s as [[cn cu l sc m] tr tm]. cbn in Htm, Hbusy.
  destruct tm as [|t [|t' tm']]; try contradiction; try congruence.
  destruct Htm as (-> & _). unfold_page. cbn. repeat split; reflexivity.
Qed.

Lemma standalone_timer_shows_success_witness :
  let s := standalone_session Fixtures.happy_world [User 2 "Acme"; User 1 ""] in
  let s' := standalone_act Fixtures.happy_world s (TimerFires 0) in
  success (react s') = true /\
  loading (react s') = false /\
  timers s' = [] /\
  companyName (react s') = companyName (react s) /\
  companyUrl (react s') = companyUrl (react s) /\
  interactions (Views.Standalone.BrochAI (react s'))
  = [ClickDocument Views.scrollToForm; Click BrochAI.onCreateAnother].
Proof.
  apply (standalone_timer_shows_success Fixtures.happy_world
           [User 2 "Acme"; User 1 ""]).
  vm_compute. discriminate.
Defined.

End SessionFacts.
